(** * Terminal calendar (calendar/main.go, calendar/gcal): interaction engine

    A shallow embedding of the Bubbletea calendar program: the date
    arithmetic ([adjustDay], [adjustMonth], [adjustYear], [clampDay],
    [daysIn]), the picker and calendar-selection key handlers, the
    [Update] transition function, the on-disk event cache
    (gcal/cache.go), the selection file (gcal/config.go) and the
    multi-calendar year fetch (gcal/events.go).

    Conventions.
    - Go [int] fields holding calendar data are unbounded [Z]; the year
      cursor of the picker, which the code steps without a guard, wraps
      at 64 bits.
    - Go strings are byte strings ([string] of [ascii]); runes are code
      points in [Z].
    - A Go map that may be nil is an [option] of a [gmap].
    - [time.Time] is the number of nanoseconds since 0001-01-01T00:00
      local time, the proleptic Gregorian calendar being exact on all of
      [Z] (Go's own representation covers about 292 billion years around
      year 1) and the local zone having no transition at midnight. *)

From Stdlib Require Import ZArith Lia Bool Ascii String List.
From stdpp Require Import base option list gmap strings.
Import ListNotations.
Local Open Scope Z_scope.

(** ** The parts of Go's [time] package that the program calls *)

Module GoTime.

Definition Time : Type := Z.
Definition Duration : Type := Z.

Definition Second : Duration := 1000000000.
Definition Hour : Duration := 3600 * Second.
Definition nsPerDay : Z := 24 * Hour.

Definition minDuration : Duration := - 2 ^ 63.
Definition maxDuration : Duration := 2 ^ 63 - 1.

(** [year%4 == 0 && (year%100 != 0 || year%400 == 0)] *)
Definition isLeap (year : Z) : bool :=
  (Z.rem year 4 =? 0) && (negb (Z.rem year 100 =? 0) || (Z.rem year 400 =? 0)).

(** [daysBefore[m]]: days in a non-leap year before month [m+1]. *)
Definition daysBefore (m : Z) : Z :=
  nth (Z.to_nat m) [0; 31; 59; 90; 120; 151; 181; 212; 243; 273; 304; 334; 365] 0.

(** [norm(hi, lo, base)]: bring [lo] into [0, base), carrying into [hi]. *)
Definition norm (hi lo base : Z) : Z * Z :=
  let '(hi, lo) :=
    if lo <? 0 then
      let n := (- lo - 1) ÷ base + 1 in (hi - n, lo + n * base)
    else (hi, lo) in
  if lo >=? base then
    let n := lo ÷ base in (hi + n, lo - n * base)
  else (hi, lo).

(** Days from 0001-01-01 to January 1 of [year]. *)
Definition daysSinceEpoch (year : Z) : Z :=
  let y := year - 1 in
  365 * y + y / 4 - y / 100 + y / 400.

(** Day number of the (possibly denormal) civil date, as [time.Date]
    computes it. *)
Definition dateDays (year month day : Z) : Z :=
  let '(year, m) := norm year (month - 1) 12 in
  let month := m + 1 in
  let d := daysSinceEpoch year + daysBefore (month - 1) in
  let d := if isLeap year && (3 <=? month) then d + 1 else d in
  d + (day - 1).

(** [time.Date(year, month, day, 0, 0, 0, 0, time.Local)] *)
Definition Date (year month day : Z) : Time :=
  dateDays year month day * nsPerDay.

(** Year and zero-based day of the year of a day number. *)
Definition absYear (days : Z) : Z * Z :=
  let n := days / 146097 in
  let y := 400 * n in
  let d := days - 146097 * n in
  let n := d / 36524 in
  let n := n - n / 4 in
  let y := y + 100 * n in
  let d := d - 36524 * n in
  let n := d / 1461 in
  let y := y + 4 * n in
  let d := d - 1461 * n in
  let n := d / 365 in
  let n := n - n / 4 in
  let y := y + n in
  let d := d - 365 * n in
  (y + 1, d).

(** Month and day of the month from the day of the year. *)
Definition monthDay (year yday : Z) : Z * Z :=
  let skip (day : Z) : Z * Z :=
    let month := day / 31 in
    let e := daysBefore (month + 1) in
    let '(month, begin) :=
      if day >=? e then (month + 1, e) else (month, daysBefore month) in
    (month + 1, day - begin + 1) in
  if isLeap year then
    if yday >? 31 + 29 - 1 then skip (yday - 1)
    else if yday =? 31 + 29 - 1 then (2, 29)
    else skip yday
  else skip yday.

Definition civil (days : Z) : Z * Z * Z :=
  let '(year, yday) := absYear days in
  let '(month, day) := monthDay year yday in
  (year, month, day).

Definition dateOf (t : Time) : Z * Z * Z := civil (t / nsPerDay).
Definition Year (t : Time) : Z := (dateOf t).1.1.
Definition Month (t : Time) : Z := (dateOf t).1.2.
Definition Day (t : Time) : Z := (dateOf t).2.

(** [t.AddDate(years, months, days)]: [Date] of the shifted fields, the
    clock of [t] kept. *)
Definition AddDate (t : Time) (years months days : Z) : Time :=
  let '(year, month, day) := dateOf t in
  Date (year + years) (month + months) (day + days) + t mod nsPerDay.

(** [t.Sub(u)], saturating at the ends of [Duration]. *)
Definition Sub (t u : Time) : Duration :=
  let d := t - u in
  if d >? maxDuration then maxDuration
  else if d <? minDuration then minDuration
  else d.

(** Length of a civil month, for stating what [daysIn] computes. *)
Definition monthLength (year month : Z) : Z :=
  if month =? 2 then (if isLeap year then 29 else 28)
  else if (month =? 4) || (month =? 6) || (month =? 9) || (month =? 11) then 30
  else 31.

Definition validDate (year month day : Z) : Prop :=
  1 <= month <= 12 /\ 1 <= day <= monthLength year month.

End GoTime.

(** ** Bytes, runes and the conversions the picker uses *)

Module GoString.

Definition byte (z : Z) : ascii := ascii_of_N (Z.to_N z).
Definition code (a : ascii) : Z := Z.of_N (N_of_ascii a).

Definition bytesToString (bs : list Z) : string :=
  fold_right (fun b s => String (byte b) s) EmptyString bs.

Definition stringToBytes (s : string) : list Z :=
  map code (list_ascii_of_string s).

(** [len(s)] *)
Definition len (s : string) : Z := Z.of_nat (String.length s).

(** [s[len(s)-n:]] for [0 <= n <= len(s)] *)
Definition suffix (n : Z) (s : string) : string :=
  substring (String.length s - Z.to_nat n) (Z.to_nat n) s.

(** [s[:len(s)-n]] for [0 <= n <= len(s)] *)
Definition dropLast (n : Z) (s : string) : string :=
  substring 0 (String.length s - Z.to_nat n) s.

(** [string(r)]: the UTF-8 encoding of a rune, U+FFFD for an invalid one. *)
Definition encodeRune (r : Z) : string :=
  if (r <? 0) || (1114111 <? r) || ((55296 <=? r) && (r <=? 57343)) then
    bytesToString [239; 191; 189]
  else if r <? 128 then bytesToString [r]
  else if r <? 2048 then
    bytesToString [192 + r / 64; 128 + r mod 64]
  else if r <? 65536 then
    bytesToString [224 + r / 4096; 128 + (r / 64) mod 64; 128 + r mod 64]
  else
    bytesToString [240 + r / 262144; 128 + (r / 4096) mod 64;
                   128 + (r / 64) mod 64; 128 + r mod 64].

(** [string(runes)] *)
Definition stringOfRunes (rs : list Z) : string :=
  fold_right (fun r s => String.append (encodeRune r) s) EmptyString rs.

Definition isCont (b : Z) : bool := (128 <=? b) && (b <=? 191).

(** Width of the first UTF-8 sequence of a byte list, 1 for an invalid
    one ([utf8.DecodeRuneInString], second result). *)
Definition decodeRuneSize (bs : list Z) : Z :=
  match bs with
  | [] => 0
  | b0 :: rest =>
      if b0 <? 128 then 1
      else if b0 <? 194 then 1
      else if b0 <=? 223 then
        match rest with
        | b1 :: _ => if isCont b1 then 2 else 1
        | _ => 1
        end
      else if b0 <=? 239 then
        let lo := if b0 =? 224 then 160 else 128 in
        let hi := if b0 =? 237 then 159 else 191 in
        match rest with
        | b1 :: b2 :: _ => if (lo <=? b1) && (b1 <=? hi) && isCont b2 then 3 else 1
        | _ => 1
        end
      else if b0 <=? 244 then
        let lo := if b0 =? 240 then 144 else 128 in
        let hi := if b0 =? 244 then 143 else 191 in
        match rest with
        | b1 :: b2 :: b3 :: _ =>
            if (lo <=? b1) && (b1 <=? hi) && isCont b2 && isCont b3 then 4 else 1
        | _ => 1
        end
      else 1
  end.

(** Scan backwards from [start] down to [lim] for a byte that starts a
    rune; the index where the loop of [DecodeLastRuneInString] stops. *)
Fixpoint scanStart (bs : list Z) (start lim : Z) (fuel : nat) : Z :=
  match fuel with
  | O => start
  | S fuel' =>
      if start <? lim then start
      else if negb (isCont (nth (Z.to_nat start) bs 0)) then start
      else scanStart bs (start - 1) lim fuel'
  end.

(** [utf8.DecodeLastRuneInString], second result. *)
Definition decodeLastRuneSize (s : string) : Z :=
  let bs := stringToBytes s in
  let e := len s in
  if e =? 0 then 0
  else
    let start := e - 1 in
    if nth (Z.to_nat start) bs 0 <? 128 then 1
    else
      let lim := Z.max (e - 4) 0 in
      let start := scanStart bs (start - 1) lim 4 in
      let start := Z.max start 0 in
      let size := decodeRuneSize (drop (Z.to_nat start) bs) in
      if start + size =? e then size else 1.

(** Decimal value of a digit string; [None] on a byte that is no digit. *)
Fixpoint digitsValue (acc : Z) (bs : list Z) : option Z :=
  match bs with
  | [] => Some acc
  | b :: bs' =>
      if (48 <=? b) && (b <=? 57) then digitsValue (acc * 10 + (b - 48)) bs'
      else None
  end.

(** [strconv.Atoi]: an optional sign and at least one decimal digit; an
    error ([None]) on anything else and on a value outside [int]. *)
Definition Atoi (s : string) : option Z :=
  let parse (neg : bool) (bs : list Z) : option Z :=
    match bs with
    | [] => None
    | _ =>
        match digitsValue 0 bs with
        | Some v =>
            let v := if neg then - v else v in
            if (- 2 ^ 63 <=? v) && (v <=? 2 ^ 63 - 1) then Some v else None
        | None => None
        end
    end in
  match stringToBytes s with
  | [] => None
  | 43 :: bs => parse false bs
  | 45 :: bs => parse true bs
  | bs => parse false bs
  end.

Definition wrap64 (z : Z) : Z := (z + 2 ^ 63) mod 2 ^ 64 - 2 ^ 63.

End GoString.

(** ** Package gcal: events, the remote service, the files on disk *)

Module gcal.

Record Event := {
  ID : string;
  Summary : string;
  StartTime : GoTime.Time;
  EndTime : GoTime.Time;
  IsAllDay : bool;
  Description : string;
  Location : string;
  CalendarID : string;
  CalendarName : string;
  Color : string
}.

(** [map[time.Month]map[int][]Event], never nil here. *)
Abbreviation EventStore := (gmap Z (gmap Z (list Event))).

(** *** The remote calendar service, as far as the program observes it *)

Record EventDateTime := { DateTime : string; Date : string }.

Record ApiEvent := {
  Id : string;
  ApiSummary : string;
  ApiDescription : string;
  ApiLocation : string;
  ColorId : string;
  Start : EventDateTime;
  End : EventDateTime
}.

Record CalendarListEntry := { EntryId : string; EntrySummary : string }.

(** One answer per remote call: the calendar list, a calendar's summary
    ([None] when the lookup fails) and the events of a calendar between
    two instants; [inr] carries the error text. *)
Record Service := {
  CalendarList_List : list CalendarListEntry + string;
  Calendars_Get : string -> option string;
  Events_List : string -> GoTime.Time -> GoTime.Time -> list ApiEvent + string
}.

Definition ListCalendars (srv : Service) : list CalendarListEntry + string :=
  match CalendarList_List srv with
  | inr err => inr (String.append "unable to retrieve calendar list: " err)
  | inl items => inl items
  end.

Section Fetch.

(** [time.Parse(time.RFC3339, s)] and [time.Parse("2006-01-02", s)]:
    [None] is a parse error. *)
Variable parseRFC3339 : string -> option GoTime.Time.
Variable parseDate : string -> option GoTime.Time.

(** One field of an item: the parsed instant, the zero time when both
    strings are empty, [None] when the loop moves on to the next item;
    the flag says whether the date-only form was used. *)
Definition parseEventTime (f : EventDateTime) : option (GoTime.Time * bool) :=
  if negb (String.eqb (DateTime f) EmptyString) then
    match parseRFC3339 (DateTime f) with
    | Some t => Some (t, false)
    | None => None
    end
  else if negb (String.eqb (Date f) EmptyString) then
    match parseDate (Date f) with
    | Some t => Some (t, true)
    | None => None
    end
  else Some (0, false).

(** Body of the loop over [events.Items]; [None] is [continue]. *)
Definition convertItem (calID calName : string) (item : ApiEvent) : option Event :=
  match parseEventTime (Start item) with
  | None => None
  | Some (startTime, allDay) =>
      match parseEventTime (End item) with
      | None => None
      | Some (endTime, _) =>
          Some {| ID := Id item; Summary := ApiSummary item;
                  StartTime := startTime; EndTime := endTime;
                  IsAllDay := allDay;
                  Description := ApiDescription item;
                  Location := ApiLocation item;
                  CalendarID := calID; CalendarName := calName;
                  Color := ColorId item |}
      end
  end.

(** [allEvents[month][day] = append(allEvents[month][day], event)] *)
Definition addEvent (allEvents : EventStore) (event : Event) : EventStore :=
  let month := GoTime.Month (StartTime event) in
  let day := GoTime.Day (StartTime event) in
  let inner := default ∅ (allEvents !! month) in
  <[month := <[day := default [] (inner !! day) ++ [event]]> inner]> allEvents.

Definition addItem (calID calName : string) (allEvents : EventStore) (item : ApiEvent)
  : EventStore :=
  match convertItem calID calName item with
  | Some event => addEvent allEvents event
  | None => allEvents
  end.

(** One turn of the loop over [calendarIDs]; the state is
    [(allEvents, lastErr)]. *)
Definition fetchCalendar (srv : Service) (timeMin timeMax : GoTime.Time)
    (acc : EventStore * option string) (calID : string) : EventStore * option string :=
  let calName := default calID (Calendars_Get srv calID) in
  match Events_List srv calID timeMin timeMax with
  | inr err => (acc.1, Some err)
  | inl items => (foldl (addItem calID calName) acc.1 items, acc.2)
  end.

Definition FetchAllMonthsEvents (srv : option Service) (calendarIDs : list string) (year : Z)
  : EventStore * option string :=
  let allEvents : EventStore := ∅ in
  match srv with
  | None => (allEvents, Some "calendar service is nil"%string)
  | Some srv =>
      if bool_decide (length calendarIDs = 0%nat) then (allEvents, None)
      else
        let startOfYear := GoTime.Date year 1 1 in
        let endOfYear :=
          GoTime.Date year 12 31 + (23 * 3600 + 59 * 60 + 59) * GoTime.Second in
        let '(allEvents, lastErr) :=
          foldl (fetchCalendar srv startOfYear endOfYear) (allEvents, None) calendarIDs in
        if bool_decide (size allEvents = 0%nat) && bool_decide (lastErr <> None)
        then (allEvents, lastErr)
        else (allEvents, None)
  end.

End Fetch.

(** *** The configuration directory *)

Record EventCache := {
  Year : Z;
  Events : option EventStore;
  Timestamp : GoTime.Time
}.

Record Config := { CalendarIDs : list string }.

(** A file of the directory: missing or not openable, present with
    contents that do not decode, or holding a value. *)
Inductive file (A : Type) : Type :=
  | Absent
  | Undecodable
  | Stored (a : A).
Arguments Absent {A}.
Arguments Undecodable {A}.
Arguments Stored {A} a.

(** [configDirOk]: [getConfigDir] succeeds; [writable]: files of the
    directory can be created, truncated and removed. *)
Record Disk := {
  configDirOk : bool;
  writable : bool;
  cacheFile : file EventCache;
  configFile : file Config
}.

Definition setCacheFile (d : Disk) (f : file EventCache) : Disk :=
  {| configDirOk := configDirOk d; writable := writable d;
     cacheFile := f; configFile := configFile d |}.

Definition setConfigFile (d : Disk) (f : file Config) : Disk :=
  {| configDirOk := configDirOk d; writable := writable d;
     cacheFile := cacheFile d; configFile := f |}.

(** The second component is [err == nil]. *)
Definition SaveEventsCache (d : Disk) (now : GoTime.Time) (year : Z)
    (events : option EventStore) : Disk * bool :=
  if negb (configDirOk d) then (d, false)
  else
    let cache := {| Year := year; Events := events; Timestamp := now |} in
    if negb (writable d) then (d, false)
    else (setCacheFile d (Stored cache), true).

Definition LoadEventsCache (d : Disk) (now : GoTime.Time) (year : Z)
  : option EventStore * bool :=
  if negb (configDirOk d) then (None, false)
  else
    match cacheFile d with
    | Absent => (None, false)
    | Undecodable => (None, false)
    | Stored cache =>
        if negb (Year cache =? year) then (None, false)
        else
          let cacheAge := GoTime.Sub now (Timestamp cache) in
          if cacheAge >? 24 * GoTime.Hour then (Events cache, false)
          else (Events cache, true)
    end.

Definition ClearEventsCache (d : Disk) : Disk * bool :=
  if negb (configDirOk d) then (d, false)
  else
    match cacheFile d with
    | Absent => (d, false)
    | _ => if writable d then (setCacheFile d Absent, true) else (d, false)
    end.

Definition defaultConfig : Config := {| CalendarIDs := ["primary"%string] |}.

(** [None] is the nil configuration returned with an error. *)
Definition LoadConfig (d : Disk) : option Config :=
  if negb (configDirOk d) then None
  else
    match configFile d with
    | Absent => Some defaultConfig
    | Undecodable => Some defaultConfig
    | Stored config =>
        if bool_decide (length (CalendarIDs config) = 0%nat) then Some defaultConfig
        else Some config
    end.

Definition SaveConfig (d : Disk) (config : Config) : Disk * bool :=
  if negb (configDirOk d) then (d, false)
  else if negb (writable d) then (d, false)
  else (setConfigFile d (Stored config), true).

End gcal.

(** ** Package main: the model and its transitions *)

Import GoString.

(** *** Messages *)

(** A key press as the handlers see it: [msg.Type] is either
    [tea.KeyRunes], with the typed runes, or a named key such as "esc",
    "enter", "up", "pgdown", "backspace", "ctrl+c". *)
Inductive KeyType := KeyRunes | KeyNamed (name : string).

Record Key := { Type_ : KeyType; Runes : list Z; Alt : bool }.

(** [msg.String()] *)
Definition keyString (k : Key) : string :=
  String.append (if Alt k then "alt+" else EmptyString)
    match Type_ k with
    | KeyRunes => stringOfRunes (Runes k)
    | KeyNamed name => name
    end.

Record syncEventsMsg := {
  msg_events : option gcal.EventStore;
  msg_err : option string
}.

Inductive Msg :=
  | WindowSizeMsg (Width : Z)
  | KeyMsg (k : Key)
  | SyncEventsMsg (msg : syncEventsMsg)
  | OtherMsg.

(** The command returned with the model: nothing, [tea.Quit], or the
    closure built by [syncEvents] from its three arguments. *)
Inductive Cmd :=
  | CmdNil
  | CmdQuit
  | CmdSync (srv : option gcal.Service) (calendarIDs : list string) (year : Z).

(** *** State *)

Record calendarState := {
  year : Z;
  month : Z;
  day : Z;
  events : option gcal.EventStore
}.

Inductive pickerType := pickerNone | pickerYear | pickerMonth.

Record pickerState := {
  active : pickerType;
  yearCursor : Z;
  monthCursor : Z;
  yearBuffer : string;
  monthBuffer : string
}.

Record eventViewState := {
  ev_active : bool;
  ev_events : list gcal.Event
}.

Record calendarViewState := {
  cv_active : bool;
  cv_calendars : list gcal.CalendarListEntry;
  cv_selected : gmap string bool;
  cv_cursor : Z
}.

(** The [styles] field only feeds the rendering and is left out. *)
Record model := {
  state : calendarState;
  width : Z;
  picker : pickerState;
  calendarSrv : option gcal.Service;
  eventView : eventViewState;
  calendarView : calendarViewState;
  syncing : bool;
  syncError : string;
  config : gcal.Config
}.

(** What a transition reads besides the model: the clock and the
    configuration directory. *)
Record World := { now : GoTime.Time; disk : gcal.Disk }.

Definition setDisk (w : World) (d : gcal.Disk) : World :=
  {| now := now w; disk := d |}.

(** Field assignments. *)

Definition setDate (s : calendarState) (d : Z * Z * Z) : calendarState :=
  {| year := d.1.1; month := d.1.2; day := d.2; events := events s |}.

Definition setYear (s : calendarState) (y : Z) : calendarState :=
  {| year := y; month := month s; day := day s; events := events s |}.

Definition setMonth (s : calendarState) (mo : Z) : calendarState :=
  {| year := year s; month := mo; day := day s; events := events s |}.

Definition setDay (s : calendarState) (d : Z) : calendarState :=
  {| year := year s; month := month s; day := d; events := events s |}.

Definition setEvents (s : calendarState) (ev : option gcal.EventStore) : calendarState :=
  {| year := year s; month := month s; day := day s; events := ev |}.

Definition setState (m : model) (s : calendarState) : model :=
  {| state := s; width := width m; picker := picker m; calendarSrv := calendarSrv m;
     eventView := eventView m; calendarView := calendarView m; syncing := syncing m;
     syncError := syncError m; config := config m |}.

Definition setWidth (m : model) (wd : Z) : model :=
  {| state := state m; width := wd; picker := picker m; calendarSrv := calendarSrv m;
     eventView := eventView m; calendarView := calendarView m; syncing := syncing m;
     syncError := syncError m; config := config m |}.

Definition setPicker (m : model) (p : pickerState) : model :=
  {| state := state m; width := width m; picker := p; calendarSrv := calendarSrv m;
     eventView := eventView m; calendarView := calendarView m; syncing := syncing m;
     syncError := syncError m; config := config m |}.

Definition setEventView (m : model) (v : eventViewState) : model :=
  {| state := state m; width := width m; picker := picker m; calendarSrv := calendarSrv m;
     eventView := v; calendarView := calendarView m; syncing := syncing m;
     syncError := syncError m; config := config m |}.

Definition setCalendarView (m : model) (v : calendarViewState) : model :=
  {| state := state m; width := width m; picker := picker m; calendarSrv := calendarSrv m;
     eventView := eventView m; calendarView := v; syncing := syncing m;
     syncError := syncError m; config := config m |}.

Definition setSyncing (m : model) (b : bool) : model :=
  {| state := state m; width := width m; picker := picker m; calendarSrv := calendarSrv m;
     eventView := eventView m; calendarView := calendarView m; syncing := b;
     syncError := syncError m; config := config m |}.

Definition setSyncError (m : model) (e : string) : model :=
  {| state := state m; width := width m; picker := picker m; calendarSrv := calendarSrv m;
     eventView := eventView m; calendarView := calendarView m; syncing := syncing m;
     syncError := e; config := config m |}.

Definition setConfig (m : model) (c : gcal.Config) : model :=
  {| state := state m; width := width m; picker := picker m; calendarSrv := calendarSrv m;
     eventView := eventView m; calendarView := calendarView m; syncing := syncing m;
     syncError := syncError m; config := c |}.

Definition setCvActive (v : calendarViewState) (b : bool) : calendarViewState :=
  {| cv_active := b; cv_calendars := cv_calendars v; cv_selected := cv_selected v;
     cv_cursor := cv_cursor v |}.

Definition setCvCursor (v : calendarViewState) (c : Z) : calendarViewState :=
  {| cv_active := cv_active v; cv_calendars := cv_calendars v;
     cv_selected := cv_selected v; cv_cursor := c |}.

Definition setCvSelected (v : calendarViewState) (s : gmap string bool) : calendarViewState :=
  {| cv_active := cv_active v; cv_calendars := cv_calendars v; cv_selected := s;
     cv_cursor := cv_cursor v |}.

(** *** The picker *)

Definition openYear (p : pickerState) (y : Z) : pickerState :=
  {| active := pickerYear; yearCursor := y; monthCursor := monthCursor p;
     yearBuffer := EmptyString; monthBuffer := EmptyString |}.

Definition openMonth (p : pickerState) (mo : Z) : pickerState :=
  {| active := pickerMonth; yearCursor := yearCursor p; monthCursor := mo - 1;
     yearBuffer := EmptyString; monthBuffer := EmptyString |}.

Definition close (p : pickerState) : pickerState :=
  {| active := pickerNone; yearCursor := yearCursor p; monthCursor := monthCursor p;
     yearBuffer := EmptyString; monthBuffer := EmptyString |}.

Definition setYearCursor (p : pickerState) (c : Z) : pickerState :=
  {| active := active p; yearCursor := c; monthCursor := monthCursor p;
     yearBuffer := yearBuffer p; monthBuffer := monthBuffer p |}.

Definition setMonthCursor (p : pickerState) (c : Z) : pickerState :=
  {| active := active p; yearCursor := yearCursor p; monthCursor := c;
     yearBuffer := yearBuffer p; monthBuffer := monthBuffer p |}.

Definition setYearBuffer (p : pickerState) (b : string) : pickerState :=
  {| active := active p; yearCursor := yearCursor p; monthCursor := monthCursor p;
     yearBuffer := b; monthBuffer := monthBuffer p |}.

Definition setMonthBuffer (p : pickerState) (b : string) : pickerState :=
  {| active := active p; yearCursor := yearCursor p; monthCursor := monthCursor p;
     yearBuffer := yearBuffer p; monthBuffer := b |}.

(** *** Date arithmetic *)

Definition adjustDay (s : calendarState) (delta : Z) : calendarState :=
  let t := GoTime.Date (year s) (month s) (day s) in
  let t := GoTime.AddDate t 0 0 delta in
  setDate s (GoTime.dateOf t).

Definition adjustMonth (s : calendarState) (delta : Z) : calendarState :=
  let t := GoTime.Date (year s) (month s) (day s) in
  let t := GoTime.AddDate t 0 delta 0 in
  setDate s (GoTime.dateOf t).

Definition adjustYear (s : calendarState) (delta : Z) : calendarState :=
  let t := GoTime.Date (year s) (month s) (day s) in
  let t := GoTime.AddDate t delta 0 0 in
  setDate s (GoTime.dateOf t).

Definition daysIn (y mo : Z) : Z :=
  let t := GoTime.Date y (mo + 1) 0 in
  GoTime.Day t.

Definition clampDay (s : calendarState) : calendarState :=
  let days := daysIn (year s) (month s) in
  let s := if day s >? days then setDay s days else s in
  if day s <? 1 then setDay s 1 else s.

Section Engine.

(** [unicode.IsDigit] above Latin-1 reads the table [unicode.Digit]; the
    table is a parameter. The two layouts of [time.Parse] used by the
    fetch are parameters as well. *)
Variable isExcludingLatinDigit : Z -> bool.
Variable parseRFC3339 : string -> option GoTime.Time.
Variable parseDate : string -> option GoTime.Time.

Definition IsDigit (r : Z) : bool :=
  if r <=? 255 then (48 <=? r) && (r <=? 57) else isExcludingLatinDigit r.

Definition handleYearRunes (p : pickerState) (runes : list Z) : pickerState :=
  let p :=
    foldl (fun p r =>
             if IsDigit r || ((r =? 45) && (len (yearBuffer p) =? 0))
             then setYearBuffer p (String.append (yearBuffer p) (encodeRune r))
             else p) p runes in
  if String.eqb (yearBuffer p) EmptyString then p
  else
    match Atoi (yearBuffer p) with
    | Some val => setYearCursor p val
    | None => p
    end.

Definition handleMonthRunes (p : pickerState) (runes : list Z) : pickerState :=
  let p :=
    foldl (fun p r =>
             if negb (IsDigit r) then p
             else
               let p := setMonthBuffer p (String.append (monthBuffer p) (encodeRune r)) in
               if len (monthBuffer p) >? 2
               then setMonthBuffer p (suffix 2 (monthBuffer p))
               else p) p runes in
  if String.eqb (monthBuffer p) EmptyString then p
  else
    match Atoi (monthBuffer p) with
    | Some val =>
        if (val >=? 1) && (val <=? 12) then setMonthCursor p (val - 1) else p
    | None => p
    end.

Definition trimLastRune (s : string) : string :=
  if String.eqb s EmptyString then s
  else
    let size := decodeLastRuneSize s in
    dropLast size s.

(** [p.yearCursor += delta] on a 64-bit [int]; the year buffer is emptied. *)
Definition stepYearCursor (p : pickerState) (delta : Z) : pickerState :=
  setYearBuffer (setYearCursor p (wrap64 (yearCursor p + delta))) EmptyString.

(** [p.monthCursor = (p.monthCursor + delta) % 12]; the month buffer is
    emptied. *)
Definition stepMonthCursor (p : pickerState) (delta : Z) : pickerState :=
  setMonthBuffer (setMonthCursor p (Z.rem (monthCursor p + delta) 12)) EmptyString.

Definition keyIn (s : string) (names : list string) : bool :=
  existsb (String.eqb s) names.

(** The result flag is the function's return value. *)
Definition handlePickerInput (m : model) (k : Key) : model * bool :=
  let p := picker m in
  match active p with
  | pickerNone => (m, false)
  | pickerYear =>
      match Type_ k with
      | KeyRunes =>
          if bool_decide (0 < length (Runes k))%nat
          then (setPicker m (handleYearRunes p (Runes k)), true)
          else (m, true)
      | KeyNamed _ =>
          let s := keyString k in
          if keyIn s ["backspace"; "ctrl+h"] then
            if negb (String.eqb (yearBuffer p) EmptyString) then
              let p := setYearBuffer p (trimLastRune (yearBuffer p)) in
              match Atoi (yearBuffer p) with
              | Some val => (setPicker m (setYearCursor p val), true)
              | None => (setPicker m p, true)
              end
            else (m, true)
          else if keyIn s ["esc"] then (setPicker m (close p), true)
          else if keyIn s ["enter"] then
            let m := setState m (setYear (state m) (yearCursor p)) in
            (setPicker m (close p), true)
          else if keyIn s ["up"; "k"] then
            (setPicker m (stepYearCursor p (-1)), true)
          else if keyIn s ["down"; "j"] then
            (setPicker m (stepYearCursor p 1), true)
          else if keyIn s ["pgup"] then
            (setPicker m (stepYearCursor p (-10)), true)
          else if keyIn s ["pgdown"] then
            (setPicker m (stepYearCursor p 10), true)
          else if keyIn s ["q"; "ctrl+c"] then (setPicker m (close p), false)
          else (m, true)
      end
  | pickerMonth =>
      match Type_ k with
      | KeyRunes =>
          if bool_decide (0 < length (Runes k))%nat
          then (setPicker m (handleMonthRunes p (Runes k)), true)
          else (m, true)
      | KeyNamed _ =>
          let s := keyString k in
          if keyIn s ["backspace"; "ctrl+h"] then
            if negb (String.eqb (monthBuffer p) EmptyString) then
              let p := setMonthBuffer p (trimLastRune (monthBuffer p)) in
              match Atoi (monthBuffer p) with
              | Some val =>
                  if (val >=? 1) && (val <=? 12)
                  then (setPicker m (setMonthCursor p (val - 1)), true)
                  else (setPicker m p, true)
              | None => (setPicker m p, true)
              end
            else (m, true)
          else if keyIn s ["esc"] then (setPicker m (close p), true)
          else if keyIn s ["enter"] then
            let m := setState m (setMonth (state m) (monthCursor p + 1)) in
            (setPicker m (close p), true)
          else if keyIn s ["up"; "k"] then
            (setPicker m (stepMonthCursor p 11), true)
          else if keyIn s ["down"; "j"] then
            (setPicker m (stepMonthCursor p 1), true)
          else if keyIn s ["pgup"] then (m, true)
          else if keyIn s ["pgdown"] then (m, true)
          else if keyIn s ["q"; "ctrl+c"] then (setPicker m (close p), false)
          else (m, true)
      end
  end.

(** The identifiers whose entry in [selected] is true. Go ranges over the
    map in an unspecified order; here it is the order of [map_to_list]. *)
Definition selectedIDs (selected : gmap string bool) : list string :=
  omap (fun kv : string * bool => if kv.2 then Some kv.1 else None) (map_to_list selected).

(** [None]: the index expression [calendars[cursor]] is out of range and
    the program stops with a run-time panic. *)
Definition handleCalendarViewInput (w : World) (m : model) (k : Key)
  : option (model * World * bool) :=
  let s := keyString k in
  let v := calendarView m in
  if keyIn s ["esc"; "q"; "c"; "C"] then
    Some (setCalendarView m (setCvActive v false), w, true)
  else if keyIn s ["up"; "k"] then
    if cv_cursor v >? 0
    then Some (setCalendarView m (setCvCursor v (cv_cursor v - 1)), w, true)
    else Some (m, w, true)
  else if keyIn s ["down"; "j"] then
    if cv_cursor v <? Z.of_nat (length (cv_calendars v)) - 1
    then Some (setCalendarView m (setCvCursor v (cv_cursor v + 1)), w, true)
    else Some (m, w, true)
  else if keyIn s [" "; "enter"] then
    if cv_cursor v <? Z.of_nat (length (cv_calendars v)) then
      if cv_cursor v <? 0 then None
      else
        match cv_calendars v !! Z.to_nat (cv_cursor v) with
        | None => None
        | Some entry =>
            let calID := gcal.EntryId entry in
            let old := default false (cv_selected v !! calID) in
            Some (setCalendarView m (setCvSelected v (<[calID := negb old]> (cv_selected v))),
                  w, true)
        end
    else Some (m, w, true)
  else if keyIn s ["a"; "A"] then
    let newIDs := selectedIDs (cv_selected v) in
    let newIDs := if bool_decide (length newIDs = 0%nat) then ["primary"%string] else newIDs in
    let m := setConfig m {| gcal.CalendarIDs := newIDs |} in
    let d := (gcal.SaveConfig (disk w) (config m)).1 in
    let d := (gcal.ClearEventsCache d).1 in
    let m := setCalendarView m (setCvActive (calendarView m) false) in
    if bool_decide (calendarSrv m <> None) && negb (syncing m)
    then Some (setSyncing m true, setDisk w d, true)
    else Some (m, setDisk w d, true)
  else Some (m, w, false).

(** The message delivered when the closure returned by
    [syncEvents(srv, calendarIDs, year)] is run. *)
Definition syncEvents (srv : option gcal.Service) (calendarIDs : list string) (y : Z)
  : syncEventsMsg :=
  match srv with
  | None =>
      {| msg_events := None; msg_err := Some "calendar service not initialized"%string |}
  | Some _ =>
      if bool_decide (length calendarIDs = 0%nat)
      then {| msg_events := Some ∅; msg_err := None |}
      else
        let '(evs, err) :=
          gcal.FetchAllMonthsEvents parseRFC3339 parseDate srv calendarIDs y in
        match err with
        | Some e => {| msg_events := Some ∅; msg_err := Some e |}
        | None => {| msg_events := Some evs; msg_err := None |}
        end
  end.

Definition runCmd (c : Cmd) : option Msg :=
  match c with
  | CmdSync srv calendarIDs y => Some (SyncEventsMsg (syncEvents srv calendarIDs y))
  | _ => None
  end.

(** The tail of [Update]: [clampDay(&m.state); return m, nil]. *)
Definition finish (w : World) (m : model) : option (model * Cmd * World) :=
  Some (setState m (clampDay (state m)), CmdNil, w).

(** The "N" and "P" cases, which differ in the sign of [delta] only. *)
Definition yearKey (w : World) (m : model) (delta : Z) : option (model * Cmd * World) :=
  let m := setState m (adjustYear (state m) delta) in
  if negb (year (state m) =? GoTime.Year (now w)) then
    let cachedEvents := (gcal.LoadEventsCache (disk w) (now w) (year (state m))).1 in
    match cachedEvents with
    | Some _ => finish w (setState m (setEvents (state m) cachedEvents))
    | None =>
        let m := setState m (setEvents (state m) (Some ∅)) in
        if bool_decide (calendarSrv m <> None) && negb (syncing m) then
          let m := setSyncing m true in
          Some (m, CmdSync (calendarSrv m) (gcal.CalendarIDs (config m)) (year (state m)), w)
        else finish w m
    end
  else finish w m.

(** The inner [switch msg.String()] of the [tea.KeyMsg] case. *)
Definition mainKey (w : World) (m : model) (k : Key) : option (model * Cmd * World) :=
  let s := keyString k in
  if keyIn s ["ctrl+c"; "q"; "esc"] then Some (m, CmdQuit, w)
  else if keyIn s ["left"; "h"] then finish w (setState m (adjustDay (state m) (-1)))
  else if keyIn s ["right"; "l"] then finish w (setState m (adjustDay (state m) 1))
  else if keyIn s ["up"; "k"] then finish w (setState m (adjustDay (state m) (-7)))
  else if keyIn s ["down"; "j"] then finish w (setState m (adjustDay (state m) 7))
  else if keyIn s ["n"] then finish w (setState m (adjustMonth (state m) 1))
  else if keyIn s ["p"] then finish w (setState m (adjustMonth (state m) (-1)))
  else if keyIn s ["N"] then yearKey w m 1
  else if keyIn s ["P"] then yearKey w m (-1)
  else if keyIn s ["t"; "T"] then
    finish w (setState m (setDate (state m) (GoTime.dateOf (now w))))
  else if keyIn s ["y"; "Y"] then
    match active (picker m) with
    | pickerYear => finish w (setPicker m (close (picker m)))
    | _ => finish w (setPicker m (openYear (picker m) (year (state m))))
    end
  else if keyIn s ["m"; "M"] then
    match active (picker m) with
    | pickerMonth => finish w (setPicker m (close (picker m)))
    | _ => finish w (setPicker m (openMonth (picker m) (month (state m))))
    end
  else if keyIn s ["s"; "S"] then
    if bool_decide (calendarSrv m <> None) && negb (syncing m) then
      let m := setSyncing m true in
      Some (m, CmdSync (calendarSrv m) (gcal.CalendarIDs (config m)) (year (state m)), w)
    else finish w m
  else if keyIn s ["c"; "C"] then
    match calendarSrv m with
    | Some srv =>
        if negb (cv_active (calendarView m)) then
          match gcal.ListCalendars srv with
          | inl calendars =>
              let selected :=
                foldl (fun sel id => <[id := true]> sel) (∅ : gmap string bool)
                      (gcal.CalendarIDs (config m)) in
              finish w (setCalendarView m
                          {| cv_active := true; cv_calendars := calendars;
                             cv_selected := selected; cv_cursor := 0 |})
          | inr _ => finish w m
          end
        else finish w m
    | None => finish w m
    end
  else if keyIn s ["e"; "E"] then
    match default ∅ (events (state m)) !! month (state m) with
    | Some evs =>
        match evs !! day (state m) with
        | Some dayEvents =>
            if bool_decide (0 < length dayEvents)%nat
            then finish w (setEventView m {| ev_active := true; ev_events := dayEvents |})
            else finish w m
        | None => finish w m
        end
    | None => finish w m
    end
  else finish w m.

Definition Update (w : World) (m : model) (msg : Msg) : option (model * Cmd * World) :=
  match msg with
  | WindowSizeMsg wd => finish w (setWidth m wd)
  | KeyMsg k =>
      if ev_active (eventView m) then
        let s := keyString k in
        if String.eqb s "esc" || String.eqb s "e" || String.eqb s "q"
        then Some (setEventView m {| ev_active := false; ev_events := ev_events (eventView m) |},
                   CmdNil, w)
        else Some (m, CmdNil, w)
      else
        match (if cv_active (calendarView m)
               then handleCalendarViewInput w m k
               else Some (m, w, false)) with
        | None => None
        | Some (m, w, true) => Some (m, CmdNil, w)
        | Some (m, w, false) =>
            let '(m, handled) := handlePickerInput m k in
            if handled then finish w m else mainKey w m k
        end
  | SyncEventsMsg msg =>
      let m := setSyncing m false in
      match msg_err msg with
      | Some err => Some (setSyncError m (String.append "Sync failed: " err), CmdNil, w)
      | None =>
          let '(m, w) :=
            match msg_events msg with
            | Some _ =>
                (setState m (setEvents (state m) (msg_events msg)),
                 setDisk w (gcal.SaveEventsCache (disk w) (now w) (year (state m))
                                                 (msg_events msg)).1)
            | None => (m, w)
            end in
          Some (setSyncError m EmptyString, CmdNil, w)
      end
  | OtherMsg => finish w m
  end.

(** [svc] is the pair returned by [gcal.GetCalendarService()]. *)
Definition initialModel (w : World) (svc : option gcal.Service * option string) : model :=
  let config := default gcal.defaultConfig (gcal.LoadConfig (disk w)) in
  let '(cachedEvents, isFresh) :=
    gcal.LoadEventsCache (disk w) (now w) (GoTime.Year (now w)) in
  let cachedEvents := match cachedEvents with Some _ => cachedEvents | None => Some ∅ end in
  let '(srv, err) := svc in
  let syncErr := default EmptyString err in
  let shouldSync :=
    bool_decide (srv <> None) && bool_decide (err = None) && negb isFresh in
  {| state := {| year := GoTime.Year (now w); month := GoTime.Month (now w);
                 day := GoTime.Day (now w); events := cachedEvents |};
     width := 0;
     picker := {| active := pickerNone; yearCursor := 0; monthCursor := 0;
                  yearBuffer := EmptyString; monthBuffer := EmptyString |};
     calendarSrv := srv;
     eventView := {| ev_active := false; ev_events := [] |};
     calendarView := {| cv_active := false; cv_calendars := []; cv_selected := ∅;
                        cv_cursor := 0 |};
     syncing := shouldSync;
     syncError := syncErr;
     config := config |}.

Definition Init (m : model) : Cmd :=
  if bool_decide (calendarSrv m <> None) && syncing m
  then CmdSync (calendarSrv m) (gcal.CalendarIDs (config m)) (year (state m))
  else CmdNil.

(** The models the running program can hold: the initial one, and the
    result of [Update] on any message in any world. *)
Inductive reachable : model -> Prop :=
  | reachable_init w svc : reachable (initialModel w svc)
  | reachable_step w m msg m' c w' :
      reachable m -> Update w m msg = Some (m', c, w') -> reachable m'.

End Engine.

(** [Update] folded over a list of messages, each step in the world the
    previous one left; the command of the last step is returned. *)
Fixpoint run (digits : Z -> bool) (w : World) (m : model) (msgs : list Msg)
  : option (model * Cmd * World) :=
  match msgs with
  | [] => Some (m, CmdNil, w)
  | [msg] => Update digits w m msg
  | msg :: rest =>
      match Update digits w m msg with
      | Some (m', _, w') => run digits w' m' rest
      | None => None
      end
  end.

(** ** Notions used to state and prove the properties *)

(** The day of the position exists in its month. *)
Definition dayValid (s : calendarState) : Prop :=
  1 <= day s <= daysIn (year s) (month s).

(** A position whose month is a calendar month and whose day exists. *)
Definition validPosition (s : calendarState) : Prop :=
  1 <= month s <= 12 /\ dayValid s.

(** The month [mo], possibly outside 1..12, brought into a year. *)
Definition normMonth (y mo : Z) : Z * Z :=
  (y + (mo - 1) / 12, (mo - 1) mod 12 + 1).

Definition yearLength (y : Z) : Z := if GoTime.isLeap y then 366 else 365.

Definition leapAdj (leap : bool) (mo : Z) : Z := if leap && (3 <=? mo) then 1 else 0.

Definition monthLen (leap : bool) (mo : Z) : Z :=
  if mo =? 2 then (if leap then 29 else 28)
  else if (mo =? 4) || (mo =? 6) || (mo =? 9) || (mo =? 11) then 30
  else 31.

(** Zero-based day of the year of a date. *)
Definition ydayOf (leap : bool) (mo d : Z) : Z :=
  GoTime.daysBefore (mo - 1) + leapAdj leap mo + (d - 1).

(** A representative year of each kind. *)
Definition leapYear (leap : bool) : Z := if leap then 2024 else 2023.

(** A boolean test on every integer of [lo, lo + n). *)
Fixpoint checkRange (f : Z -> bool) (lo : Z) (n : nat) : bool :=
  match n with
  | O => true
  | S n' => f lo && checkRange f (lo + 1) n'
  end.

Definition yearCheck (r : Z) : bool :=
  let '(y, yd) := GoTime.absYear r in
  (GoTime.daysSinceEpoch y + yd =? r) && (0 <=? yd) && (yd <? yearLength y).

Definition monthDayCheck (leap : bool) (yd : Z) : bool :=
  let '(mo, d) := GoTime.monthDay (leapYear leap) yd in
  (1 <=? mo) && (mo <=? 12) && (1 <=? d) && (d <=? monthLen leap mo)
  && (ydayOf leap mo d =? yd).

Definition ydayCheck (leap : bool) (mo d : Z) : bool :=
  (monthLen leap mo <? d) ||
  (let '(mo', d') := GoTime.monthDay (leapYear leap) (ydayOf leap mo d) in
   (mo' =? mo) && (d' =? d))
  && (0 <=? ydayOf leap mo d) && (ydayOf leap mo d <? (if leap then 366 else 365)).

Definition monthEndCheck (leap : bool) (mo : Z) : bool :=
  ydayOf leap (mo + 1) 0 =? ydayOf leap mo (monthLen leap mo).

(** The calendar list of [srv] answers for [calID] in the year's window. *)
Definition succeeded (srv : gcal.Service) (y : Z) (calID : string) : bool :=
  match gcal.Events_List srv calID (GoTime.Date y 1 1)
          (GoTime.Date y 12 31 + (23 * 3600 + 59 * 60 + 59) * GoTime.Second) with
  | inl _ => true
  | inr _ => false
  end.

(** One turn of the loop of the year fetch, in the year's window. *)
Definition fetchStep (parseRFC3339 parseDate : string -> option GoTime.Time)
    (srv : gcal.Service) (y : Z) :=
  gcal.fetchCalendar parseRFC3339 parseDate srv (GoTime.Date y 1 1)
    (GoTime.Date y 12 31 + (23 * 3600 + 59 * 60 + 59) * GoTime.Second).

(** What the transitions keep: the day exists in its month, and the cursor
    of the selection view is not negative. *)
Definition inv (m : model) : Prop :=
  dayValid (state m) /\ 0 <= cv_cursor (calendarView m).

(** [s] with at most its last two bytes kept. *)
Definition lastTwo (s : string) : string :=
  if len s >? 2 then suffix 2 s else s.

(** ** Inputs at which the properties are evaluated *)

(** A digit table with no digit above Latin-1. *)
Definition noDigitsAboveLatin1 (r : Z) : bool := false.


Definition sampleEvent : gcal.Event :=
  {| gcal.ID := "e1"; gcal.Summary := "Review";
     gcal.StartTime := 0; gcal.EndTime := 0; gcal.IsAllDay := false;
     gcal.Description := EmptyString; gcal.Location := EmptyString;
     gcal.CalendarID := "primary"; gcal.CalendarName := "primary";
     gcal.Color := EmptyString |}.

(** One event on 15 March. *)
Definition sampleStore : gcal.EventStore := {[ 3 := {[ 15 := [sampleEvent] ]} ]}.

(** A record for 2024 saved at instant 0. *)
Definition sampleCache : gcal.EventCache :=
  {| gcal.Year := 2024; gcal.Events := Some sampleStore; gcal.Timestamp := 0 |}.

Definition sampleDisk : gcal.Disk :=
  {| gcal.configDirOk := true; gcal.writable := true;
     gcal.cacheFile := gcal.Stored sampleCache; gcal.configFile := gcal.Absent |}.

(** A service on which calendar "work" answers with no events and every
    other calendar fails. *)
Definition halfService : gcal.Service :=
  {| gcal.CalendarList_List := inl [];
     gcal.Calendars_Get := fun _ => None;
     gcal.Events_List := fun calID _ _ =>
       if String.eqb calID "work" then inl [] else inr "timeout"%string |}.

Definition noParse (s : string) : option GoTime.Time := None.

(** The picker of a freshly started program. *)
Definition samplePicker : pickerState :=
  {| active := pickerNone; yearCursor := 0; monthCursor := 0;
     yearBuffer := EmptyString; monthBuffer := EmptyString |}.

(** Noon of 10 June 2026, with the 2024 record on disk. *)
Definition sampleWorld : World :=
  {| now := GoTime.Date 2026 6 10 + 12 * GoTime.Hour; disk := sampleDisk |}.

(** A model at the top level: no overlay, no selection view, no picker. *)
Definition sampleModel : model :=
  {| state := {| year := 2026; month := 6; day := 10; events := Some ∅ |};
     width := 80;
     picker := samplePicker;
     calendarSrv := Some halfService;
     eventView := {| ev_active := false; ev_events := [] |};
     calendarView := {| cv_active := false; cv_calendars := []; cv_selected := ∅;
                        cv_cursor := 0 |};
     syncing := false;
     syncError := EmptyString;
     config := gcal.defaultConfig |}.

Definition runeKey (r : Z) : Key := {| Type_ := KeyRunes; Runes := [r]; Alt := false |}.

Definition namedKey (name : string) : Key :=
  {| Type_ := KeyNamed name; Runes := []; Alt := false |}.

(** The selection view open on two calendars, "work" ticked and "primary"
    unticked, no sync in flight. *)
Definition selectingModel : model :=
  setCalendarView sampleModel
    {| cv_active := true;
       cv_calendars := [ {| gcal.EntryId := "primary"; gcal.EntrySummary := "Me" |};
                         {| gcal.EntryId := "work"; gcal.EntrySummary := "Work" |} ];
       cv_selected := {[ "primary"%string := false; "work"%string := true ]};
       cv_cursor := 1 |}.

(** One event on 4 July. *)
Definition otherStore : gcal.EventStore := {[ 7 := {[ 4 := [sampleEvent] ]} ]}.

(** ** The calendar of the [time] package *)

Lemma norm_spec hi lo : GoTime.norm hi lo 12 = (hi + lo / 12, lo mod 12).
Proof.
  unfold GoTime.norm. destruct (Z.ltb_spec lo 0); cbv zeta.
  - destruct (Z.geb_spec (lo + ((- lo - 1) ÷ 12 + 1) * 12) 12); f_equal;
      Z.to_euclidean_division_equations; lia.
  - destruct (Z.geb_spec lo 12); f_equal; Z.to_euclidean_division_equations; lia.
Qed.

Lemma isLeap_shift y k : GoTime.isLeap (y + 400 * k) = GoTime.isLeap y.
Proof.
  unfold GoTime.isLeap.
  assert (H4 : (Z.rem (y + 400 * k) 4 =? 0) = (Z.rem y 4 =? 0)).
  { destruct (Z.eqb_spec (Z.rem (y + 400 * k) 4) 0), (Z.eqb_spec (Z.rem y 4) 0);
      try reflexivity; Z.to_euclidean_division_equations; lia. }
  assert (H100 : (Z.rem (y + 400 * k) 100 =? 0) = (Z.rem y 100 =? 0)).
  { destruct (Z.eqb_spec (Z.rem (y + 400 * k) 100) 0), (Z.eqb_spec (Z.rem y 100) 0);
      try reflexivity; Z.to_euclidean_division_equations; lia. }
  assert (H400 : (Z.rem (y + 400 * k) 400 =? 0) = (Z.rem y 400 =? 0)).
  { destruct (Z.eqb_spec (Z.rem (y + 400 * k) 400) 0), (Z.eqb_spec (Z.rem y 400) 0);
      try reflexivity; Z.to_euclidean_division_equations; lia. }
  by rewrite H4, H100, H400.
Qed.

Lemma daysSinceEpoch_shift y k :
  GoTime.daysSinceEpoch (y + 400 * k) = GoTime.daysSinceEpoch y + 146097 * k.
Proof. unfold GoTime.daysSinceEpoch. cbv zeta. Z.to_euclidean_division_equations. lia. Qed.

Lemma daysSinceEpoch_succ y :
  GoTime.daysSinceEpoch (y + 1) = GoTime.daysSinceEpoch y + yearLength y.
Proof.
  unfold GoTime.daysSinceEpoch, yearLength, GoTime.isLeap. cbv zeta.
  replace (y + 1 - 1) with y by lia.
  destruct (Z.eqb_spec (Z.rem y 4) 0), (Z.eqb_spec (Z.rem y 100) 0),
           (Z.eqb_spec (Z.rem y 400) 0); simpl;
    Z.to_euclidean_division_equations; lia.
Qed.

Lemma daysSinceEpoch_mono y y' :
  y <= y' -> GoTime.daysSinceEpoch y <= GoTime.daysSinceEpoch y'.
Proof.
  unfold GoTime.daysSinceEpoch. cbv zeta. intros.
  Z.to_euclidean_division_equations. lia.
Qed.

Lemma checkRange_spec f n : forall lo, checkRange f lo n = true ->
  forall z, lo <= z < lo + Z.of_nat n -> f z = true.
Proof.
  induction n as [|n IH]; intros lo H z Hz; [lia|].
  simpl in H. apply andb_prop in H as [H1 H2].
  destruct (Z.eq_dec z lo) as [->|Hne]; [exact H1|].
  apply (IH (lo + 1)); [exact H2|lia].
Qed.

Lemma yearCheck_cycle : checkRange yearCheck 0 (Z.to_nat 146097) = true.
Proof. vm_compute. reflexivity. Qed.

Lemma absYear_shift q r : 0 <= r < 146097 ->
  GoTime.absYear (146097 * q + r) =
  ((GoTime.absYear r).1 + 400 * q, (GoTime.absYear r).2).
Proof.
  intros Hr. unfold GoTime.absYear. cbv zeta.
  assert (Hq : (146097 * q + r) / 146097 = q) by (Z.to_euclidean_division_equations; lia).
  assert (H0 : r / 146097 = 0) by (Z.to_euclidean_division_equations; lia).
  rewrite Hq, H0. simpl fst; simpl snd.
  replace (146097 * q + r - 146097 * q) with r by lia.
  replace (r - 146097 * 0) with r by lia.
  f_equal. lia.
Qed.

Lemma absYear_spec n y yd : GoTime.absYear n = (y, yd) ->
  GoTime.daysSinceEpoch y + yd = n /\ 0 <= yd < yearLength y.
Proof.
  intros H.
  pose proof (Z.div_mod n 146097 ltac:(lia)) as Hn.
  pose proof (Z.mod_pos_bound n 146097 ltac:(lia)) as Hr.
  set (q := n / 146097) in *. set (r := n mod 146097) in *.
  rewrite Hn, (absYear_shift q r Hr) in H.
  pose proof (checkRange_spec _ _ _ yearCheck_cycle r ltac:(lia)) as Hc.
  unfold yearCheck in Hc. destruct (GoTime.absYear r) as [y0 yd0]. simpl in H.
  injection H as <- <-.
  apply andb_prop in Hc as [Hc H3]. apply andb_prop in Hc as [H1 H2].
  unfold yearLength in *. rewrite isLeap_shift, daysSinceEpoch_shift. lia.
Qed.

Lemma absYear_unique n y yd :
  GoTime.daysSinceEpoch y + yd = n -> 0 <= yd < yearLength y ->
  GoTime.absYear n = (y, yd).
Proof.
  intros Hn Hyd. destruct (GoTime.absYear n) as [y' yd'] eqn:E.
  apply absYear_spec in E as [Hn' Hyd'].
  assert (y' = y).
  { destruct (Z.lt_trichotomy y y') as [Hlt|[Heq|Hgt]]; [|done|].
    - pose proof (daysSinceEpoch_mono (y + 1) y' ltac:(lia)).
      rewrite daysSinceEpoch_succ in *. lia.
    - pose proof (daysSinceEpoch_mono (y' + 1) y ltac:(lia)).
      rewrite daysSinceEpoch_succ in *. lia. }
  subst y'. f_equal. lia.
Qed.

Lemma monthDayCheck_all :
  checkRange (monthDayCheck true) 0 366 = true /\
  checkRange (monthDayCheck false) 0 365 = true.
Proof. split; vm_compute; reflexivity. Qed.

Lemma ydayCheck_all leap :
  checkRange (fun mo => checkRange (ydayCheck leap mo) 1 31) 1 12 = true.
Proof. destruct leap; vm_compute; reflexivity. Qed.

Lemma monthEndCheck_all leap : checkRange (monthEndCheck leap) 1 11 = true.
Proof. destruct leap; vm_compute; reflexivity. Qed.

Lemma monthDay_leap y yd :
  GoTime.monthDay y yd = GoTime.monthDay (leapYear (GoTime.isLeap y)) yd.
Proof. unfold GoTime.monthDay. destruct (GoTime.isLeap y); reflexivity. Qed.

Lemma monthLength_leap y mo : GoTime.monthLength y mo = monthLen (GoTime.isLeap y) mo.
Proof. reflexivity. Qed.

Lemma monthLen_bounds leap mo : 28 <= monthLen leap mo <= 31.
Proof. unfold monthLen. repeat case_match; lia. Qed.

Lemma monthDay_spec y yd mo d :
  0 <= yd < yearLength y -> GoTime.monthDay y yd = (mo, d) ->
  1 <= mo <= 12 /\ 1 <= d <= GoTime.monthLength y mo /\ ydayOf (GoTime.isLeap y) mo d = yd.
Proof.
  intros Hyd H. rewrite monthDay_leap in H. rewrite monthLength_leap.
  unfold yearLength in Hyd. destruct monthDayCheck_all as [Ht Hf].
  assert (Hc : monthDayCheck (GoTime.isLeap y) yd = true).
  { destruct (GoTime.isLeap y).
    - apply (checkRange_spec _ _ _ Ht). lia.
    - apply (checkRange_spec _ _ _ Hf). lia. }
  unfold monthDayCheck in Hc. rewrite H in Hc.
  repeat (apply andb_prop in Hc as [Hc ?]). lia.
Qed.

Lemma ydayOf_spec y mo d : GoTime.validDate y mo d ->
  GoTime.monthDay y (ydayOf (GoTime.isLeap y) mo d) = (mo, d) /\
  0 <= ydayOf (GoTime.isLeap y) mo d < yearLength y.
Proof.
  intros [Hm Hd]. rewrite monthLength_leap in Hd. rewrite monthDay_leap. unfold yearLength.
  pose proof (checkRange_spec _ _ _ (ydayCheck_all (GoTime.isLeap y)) mo ltac:(lia)) as Hc.
  cbv beta in Hc.
  pose proof (monthLen_bounds (GoTime.isLeap y) mo) as Hb.
  pose proof (checkRange_spec _ _ _ Hc d ltac:(lia)) as Hc'.
  unfold ydayCheck in Hc'. apply orb_prop in Hc' as [Hc'|Hc']; [lia|].
  destruct (GoTime.monthDay _ _) as [mo' d'].
  repeat (apply andb_prop in Hc' as [Hc' ?]).
  destruct (GoTime.isLeap y); split; try f_equal; lia.
Qed.

Lemma dateDays_normMonth y mo d :
  GoTime.dateDays y mo d =
  GoTime.daysSinceEpoch (normMonth y mo).1
  + ydayOf (GoTime.isLeap (normMonth y mo).1) (normMonth y mo).2 d.
Proof.
  unfold GoTime.dateDays, normMonth. rewrite norm_spec. simpl fst; simpl snd.
  unfold ydayOf, leapAdj. cbv zeta.
  replace ((mo - 1) mod 12 + 1 - 1) with ((mo - 1) mod 12) by lia.
  destruct (GoTime.isLeap _ && _); lia.
Qed.

Lemma normMonth_id y mo : 1 <= mo <= 12 -> normMonth y mo = (y, mo).
Proof.
  intros H. unfold normMonth.
  f_equal; Z.to_euclidean_division_equations; lia.
Qed.

Lemma normMonth_range y mo : 1 <= (normMonth y mo).2 <= 12.
Proof. unfold normMonth. simpl. Z.to_euclidean_division_equations; lia. Qed.

Lemma dateDays_valid y mo d : 1 <= mo <= 12 ->
  GoTime.dateDays y mo d = GoTime.daysSinceEpoch y + ydayOf (GoTime.isLeap y) mo d.
Proof. intros Hm. rewrite dateDays_normMonth, normMonth_id by done. reflexivity. Qed.

Lemma civil_dateDays y mo d : GoTime.validDate y mo d ->
  GoTime.civil (GoTime.dateDays y mo d) = (y, mo, d).
Proof.
  intros Hv. rewrite dateDays_valid by apply Hv.
  destruct (ydayOf_spec _ _ _ Hv) as [Hmd Hyd].
  unfold GoTime.civil. rewrite (absYear_unique _ y _ eq_refl Hyd), Hmd. reflexivity.
Qed.

Lemma dateDays_civil n y mo d : GoTime.civil n = (y, mo, d) ->
  GoTime.validDate y mo d /\ GoTime.dateDays y mo d = n.
Proof.
  unfold GoTime.civil. destruct (GoTime.absYear n) as [y0 yd] eqn:Ey.
  destruct (GoTime.monthDay y0 yd) as [m0 d0] eqn:Em. intros [= <- <- <-].
  apply absYear_spec in Ey as [Hn Hyd].
  destruct (monthDay_spec _ _ _ _ Hyd Em) as (Hm & Hd & Hy).
  split; [split; assumption|]. rewrite dateDays_valid by assumption. lia.
Qed.


Lemma dateOf_Date y mo d :
  GoTime.dateOf (GoTime.Date y mo d) = GoTime.civil (GoTime.dateDays y mo d).
Proof.
  unfold GoTime.dateOf, GoTime.Date. f_equal. apply Z.div_mul. discriminate.
Qed.

Lemma Date_clock y mo d : GoTime.Date y mo d mod GoTime.nsPerDay = 0.
Proof. unfold GoTime.Date. apply Z.mod_mul. discriminate. Qed.

(** The day before the first of the next month is the last day of the
    month. *)
Lemma dateDays_month_end y mo : 1 <= mo <= 12 ->
  GoTime.dateDays y (mo + 1) 0 = GoTime.dateDays y mo (GoTime.monthLength y mo).
Proof.
  intros Hm. rewrite (dateDays_valid y mo) by done.
  destruct (Z.eq_dec mo 12) as [->|Hne].
  - rewrite dateDays_normMonth.
    change (normMonth y (12 + 1)) with (y + 1, 1). simpl fst; simpl snd.
    rewrite daysSinceEpoch_succ, monthLength_leap. unfold yearLength.
    assert (H1 : forall l, ydayOf l 1 0 = -1) by (intros []; reflexivity).
    assert (H2 : forall l, ydayOf l 12 (monthLen l 12) = (if l then 366 else 365) - 1)
      by (intros []; reflexivity).
    rewrite H1, H2. lia.
  - rewrite dateDays_valid by lia. f_equal. rewrite monthLength_leap.
    pose proof (checkRange_spec _ _ _ (monthEndCheck_all (GoTime.isLeap y)) mo ltac:(lia)) as Hc.
    unfold monthEndCheck in Hc. lia.
Qed.

Lemma daysIn_monthLength y mo : 1 <= mo <= 12 -> daysIn y mo = GoTime.monthLength y mo.
Proof.
  intros Hm. unfold daysIn, GoTime.Day. rewrite dateOf_Date, dateDays_month_end by done.
  rewrite civil_dateDays; [reflexivity|].
  split; [done|]. rewrite monthLength_leap.
  pose proof (monthLen_bounds (GoTime.isLeap y) mo). lia.
Qed.

Lemma daysIn_normMonth y mo :
  daysIn y mo = GoTime.monthLength (normMonth y mo).1 (normMonth y mo).2.
Proof.
  rewrite <- daysIn_monthLength by apply normMonth_range.
  unfold daysIn, GoTime.Day. rewrite !dateOf_Date. do 2 f_equal.
  rewrite !dateDays_normMonth. unfold normMonth. simpl fst; simpl snd.
  replace (mo + 1 - 1) with mo by lia.
  replace ((mo - 1) mod 12 + 1 + 1 - 1) with ((mo - 1) mod 12 + 1) by lia.
  assert (E1 : y + (mo - 1) / 12 + ((mo - 1) mod 12 + 1) / 12 = y + mo / 12)
    by (Z.to_euclidean_division_equations; lia).
  assert (E2 : ((mo - 1) mod 12 + 1) mod 12 = mo mod 12)
    by (Z.to_euclidean_division_equations; lia).
  rewrite E1, E2. reflexivity.
Qed.

Lemma daysIn_bounds y mo : 28 <= daysIn y mo <= 31.
Proof. rewrite daysIn_normMonth, monthLength_leap. apply monthLen_bounds. Qed.

Lemma dateOf_valid t y mo d : GoTime.dateOf t = (y, mo, d) ->
  1 <= mo <= 12 /\ 1 <= d <= daysIn y mo.
Proof.
  unfold GoTime.dateOf. intros H. apply dateDays_civil in H as [[Hm Hd] _].
  rewrite daysIn_monthLength by done. done.
Qed.

(** ** Date arithmetic of the engine *)

Lemma dayValid_setDate s t : dayValid (setDate s (GoTime.dateOf t)).
Proof.
  destruct (GoTime.dateOf t) as [[y mo] d] eqn:E.
  apply dateOf_valid in E. unfold dayValid. simpl. lia.
Qed.

Lemma validPosition_setDate s t : validPosition (setDate s (GoTime.dateOf t)).
Proof.
  split; [|apply dayValid_setDate].
  destruct (GoTime.dateOf t) as [[y mo] d] eqn:E.
  apply dateOf_valid in E. simpl. lia.
Qed.

Lemma adjustDay_valid s delta : dayValid (adjustDay s delta).
Proof. apply dayValid_setDate. Qed.

Lemma adjustMonth_valid s delta : dayValid (adjustMonth s delta).
Proof. apply dayValid_setDate. Qed.

Lemma adjustYear_valid s delta : dayValid (adjustYear s delta).
Proof. apply dayValid_setDate. Qed.

Lemma clampDay_valid s : dayValid (clampDay s).
Proof.
  unfold clampDay, dayValid. cbv zeta.
  pose proof (daysIn_bounds (year s) (month s)).
  destruct (Z.gtb_spec (day s) (daysIn (year s) (month s))); simpl;
    match goal with |- context [?a <? 1] => destruct (Z.ltb_spec a 1) end; simpl; lia.
Qed.

Lemma clampDay_id s : dayValid s -> clampDay s = s.
Proof.
  unfold clampDay, dayValid. cbv zeta. intros H.
  destruct (Z.gtb_spec (day s) (daysIn (year s) (month s))); [lia|].
  destruct (Z.ltb_spec (day s) 1); [lia|]. reflexivity.
Qed.

Lemma clampDay_events s : events (clampDay s) = events s.
Proof. unfold clampDay. cbv zeta. repeat case_match; reflexivity. Qed.

Lemma clampDay_year s : year (clampDay s) = year s.
Proof. unfold clampDay. cbv zeta. repeat case_match; reflexivity. Qed.

Lemma clampDay_idempotent s : clampDay (clampDay s) = clampDay s.
Proof. apply clampDay_id, clampDay_valid. Qed.

(** For a valid position the first [time.Date] of an adjust function reads
    back the position itself. *)
Lemma dateOf_Date_valid s : validPosition s ->
  GoTime.dateOf (GoTime.Date (year s) (month s) (day s)) = (year s, month s, day s).
Proof.
  intros [Hm Hd]. rewrite dateOf_Date. apply civil_dateDays.
  split; [done|]. rewrite <- daysIn_monthLength by done. apply Hd.
Qed.


Lemma adjustYear_civil s delta : validPosition s ->
  adjustYear s delta =
  setDate s (GoTime.civil (GoTime.dateDays (year s + delta) (month s) (day s))).
Proof.
  intros Hv. unfold adjustYear, GoTime.AddDate. cbv zeta.
  rewrite (dateOf_Date_valid s Hv), Date_clock, Z.add_0_r, dateOf_Date.
  by rewrite !Z.add_0_r.
Qed.



(** C2 (code): at (2024, 1, 31) a month step of +1 followed by the clamp
    does not stop at the last day of February: [AddDate] has already
    carried the thirty-first of February over to 2 March when [clampDay]
    runs, and the clamp leaves that date alone. *)
Theorem adjustMonth_jan31_lands_in_march :
  clampDay (adjustMonth {| year := 2024; month := 1; day := 31; events := None |} 1)
  = {| year := 2024; month := 3; day := 2; events := None |}.
Proof. vm_compute. reflexivity. Qed.



(** ** The event cache *)

Lemma Sub_le_day now ts :
  (GoTime.Sub now ts >? 24 * GoTime.Hour) = (now - ts >? 24 * GoTime.Hour).
Proof.
  unfold GoTime.Sub, GoTime.maxDuration, GoTime.minDuration. cbv zeta.
  change (24 * GoTime.Hour) with 86400000000000.
  change (2 ^ 63 - 1) with 9223372036854775807.
  change (- 2 ^ 63) with (-9223372036854775808).
  destruct (Z.gtb_spec (now - ts) 9223372036854775807).
  - destruct (Z.gtb_spec (now - ts) 86400000000000); [reflexivity|lia].
  - destruct (Z.ltb_spec (now - ts) (-9223372036854775808)); [|reflexivity].
    destruct (Z.gtb_spec (now - ts) 86400000000000); [lia|reflexivity].
Qed.

(** C4 (as stated, refuted): a record read exactly 24 hours after it was
    saved has an age that is not under 24 hours, and is reported fresh. *)
Lemma cache_fresh_at_exactly_24h :
  let saved := {| gcal.Year := 2024; gcal.Events := Some ∅; gcal.Timestamp := 0 |} in
  let d := {| gcal.configDirOk := true; gcal.writable := true;
              gcal.cacheFile := gcal.Stored saved; gcal.configFile := gcal.Absent |} in
  let now := 24 * GoTime.Hour in
  ~ ((gcal.LoadEventsCache d now 2024).2 = true <->
     GoTime.Sub now (gcal.Timestamp saved) < 24 * GoTime.Hour).
Proof.
  intros saved d now [H _].
  assert (Hf : (gcal.LoadEventsCache d now 2024).2 = true) by (vm_compute; reflexivity).
  specialize (H Hf). vm_compute in H. discriminate.
Qed.

(** C4 (amended): loading the cache for a year returns no events when the
    configuration directory is unavailable, no record exists, the record
    does not decode, or the stored year differs from the requested one;
    when the stored year matches, it returns the stored events whatever
    their age, with [isFresh] true exactly when the age of the record is at
    most 24 hours. *)
Theorem LoadEventsCache_cases (d : gcal.Disk) (now : GoTime.Time) (y : Z) :
  (gcal.configDirOk d = false \/ gcal.cacheFile d = gcal.Absent \/
   gcal.cacheFile d = gcal.Undecodable \/
   (exists cache, gcal.cacheFile d = gcal.Stored cache /\ gcal.Year cache <> y) ->
   gcal.LoadEventsCache d now y = (None, false))
  /\
  (forall cache,
     gcal.configDirOk d = true -> gcal.cacheFile d = gcal.Stored cache ->
     gcal.Year cache = y ->
     (gcal.LoadEventsCache d now y).1 = gcal.Events cache /\
     ((gcal.LoadEventsCache d now y).2 = true <->
      GoTime.Sub now (gcal.Timestamp cache) <= 24 * GoTime.Hour)).
Proof.
  split.
  - intros [H|[H|[H|(cache & H & Hy)]]]; unfold gcal.LoadEventsCache; rewrite H;
      try reflexivity; destruct (gcal.configDirOk d); try reflexivity.
    simpl. destruct (Z.eqb_spec (gcal.Year cache) y); [contradiction|reflexivity].
  - intros cache Hok Hf Hy. unfold gcal.LoadEventsCache. rewrite Hok, Hf. simpl.
    rewrite Hy, Z.eqb_refl. simpl.
    destruct (Z.gtb_spec (GoTime.Sub now (gcal.Timestamp cache)) (24 * GoTime.Hour));
      simpl; split; try reflexivity; split; intros; try discriminate; try lia; reflexivity.
Qed.

(** ** The year fetch *)

Lemma fetchCalendar_failed parseRFC3339 parseDate srv y acc e calID :
  succeeded srv y calID = false ->
  (fetchStep parseRFC3339 parseDate srv y (acc, e) calID).1 = acc /\
  (fetchStep parseRFC3339 parseDate srv y (acc, e) calID).2 <> None.
Proof.
  unfold succeeded, fetchStep, gcal.fetchCalendar.
  destruct (gcal.Events_List srv calID _ _); [discriminate|]. simpl. done.
Qed.

Lemma fetchCalendar_succeeded parseRFC3339 parseDate srv y acc e e' calID :
  succeeded srv y calID = true ->
  (fetchStep parseRFC3339 parseDate srv y (acc, e) calID).1
  = (fetchStep parseRFC3339 parseDate srv y (acc, e') calID).1 /\
  (fetchStep parseRFC3339 parseDate srv y (acc, e) calID).2 = e.
Proof.
  unfold succeeded, fetchStep, gcal.fetchCalendar.
  destruct (gcal.Events_List srv calID _ _); [|discriminate]. simpl. done.
Qed.

(** The aggregate is the one of the calendars that answered. *)
Lemma fetch_fold_events parseRFC3339 parseDate srv y ids : forall acc e e',
  (foldl (fetchStep parseRFC3339 parseDate srv y) (acc, e) ids).1 =
  (foldl (fetchStep parseRFC3339 parseDate srv y) (acc, e')
         (List.filter (succeeded srv y) ids)).1.
Proof.
  set (step := fetchStep parseRFC3339 parseDate srv y).
  induction ids as [|calID ids IH]; intros acc e e'; [reflexivity|].
  simpl. destruct (succeeded srv y calID) eqn:Hs.
  - simpl.
    destruct (fetchCalendar_succeeded parseRFC3339 parseDate srv y acc e e' calID Hs)
      as [H1 _].
    fold step in H1.
    destruct (step (acc, e) calID) as [a1 e1], (step (acc, e') calID) as [a2 e2].
    simpl in H1. subst a2. apply IH.
  - destruct (fetchCalendar_failed parseRFC3339 parseDate srv y acc e calID Hs) as [H1 _].
    fold step in H1.
    destruct (step (acc, e) calID) as [a1 e1]. simpl in H1. subst a1. apply IH.
Qed.

(** [lastErr] is set exactly when some calendar failed. *)
Lemma fetch_fold_error parseRFC3339 parseDate srv y ids : forall acc e,
  (foldl (fetchStep parseRFC3339 parseDate srv y) (acc, e) ids).2 <> None <->
  e <> None \/ exists calID, calID ∈ ids /\ succeeded srv y calID = false.
Proof.
  set (step := fetchStep parseRFC3339 parseDate srv y).
  induction ids as [|calID ids IH]; intros acc e.
  - simpl. split; [auto|]. intros [H|(c & Hc & _)]; [done|]. by apply elem_of_nil in Hc.
  - simpl. destruct (step (acc, e) calID) as [a1 e1] eqn:E. rewrite IH.
    destruct (succeeded srv y calID) eqn:Hs.
    + destruct (fetchCalendar_succeeded parseRFC3339 parseDate srv y acc e e calID Hs)
        as [_ H2].
      fold step in H2. rewrite E in H2. simpl in H2. subst e1. split.
      * intros [H|(c & Hc & Hf)]; [by left|]. right. exists c. split; [|done].
        by apply elem_of_cons; right.
      * intros [H|(c & Hc & Hf)]; [by left|]. right. exists c. split; [|done].
        apply elem_of_cons in Hc as [->|Hc]; [congruence|done].
    + destruct (fetchCalendar_failed parseRFC3339 parseDate srv y acc e calID Hs)
        as [_ H2].
      fold step in H2. rewrite E in H2. simpl in H2. split.
      * intros _. right. exists calID. split; [apply elem_of_cons; by left|done].
      * intros _. by left.
Qed.

(** C8 (as stated, refuted): calendar "work" answers, with no events, and
    calendar "home" fails; one calendar succeeded and the fetch returns
    the error all the same. *)
Lemma fetch_error_with_one_calendar_reached :
  succeeded halfService 2024 "work" = true /\
  (gcal.FetchAllMonthsEvents noParse noParse (Some halfService) ["work"; "home"] 2024).2
  = Some "timeout"%string.
Proof. split; vm_compute; reflexivity. Qed.

(** C8 (amended): without a service the year fetch returns an error; with
    one, it returns an error exactly when the aggregated store is empty
    and some calendar of the list failed, so never when an event was
    aggregated and always when the list is not empty and every calendar
    failed. A failing calendar contributes no events and does not stop the
    aggregation: the store is the one obtained from the calendars that
    answered. *)
Theorem FetchAllMonthsEvents_error
    (parseRFC3339 parseDate : string -> option GoTime.Time)
    (srv : gcal.Service) (calendarIDs : list string) (y : Z) :
  let fetch := gcal.FetchAllMonthsEvents parseRFC3339 parseDate in
  (fetch None calendarIDs y).2 <> None
  /\ ((fetch (Some srv) calendarIDs y).2 <> None <->
      (fetch (Some srv) calendarIDs y).1 = ∅ /\
      exists calID, calID ∈ calendarIDs /\ succeeded srv y calID = false)
  /\ (fetch (Some srv) calendarIDs y).1
     = (fetch (Some srv) (List.filter (succeeded srv y) calendarIDs) y).1.
Proof.
  cbv zeta. split; [done|].
  unfold gcal.FetchAllMonthsEvents. fold (fetchStep parseRFC3339 parseDate srv y).
  pose proof (fetch_fold_events parseRFC3339 parseDate srv y calendarIDs ∅ None None) as Hev.
  pose proof (fetch_fold_error parseRFC3339 parseDate srv y calendarIDs ∅ None) as Herr.
  cbv zeta in Hev, Herr.
  destruct calendarIDs as [|c0 ids] eqn:Eids.
  { simpl. split; [|reflexivity]. split; [done|].
    intros [_ (c & Hc & _)]. by apply elem_of_nil in Hc. }
  rewrite <- Eids in *.
  assert (Hne : bool_decide (length calendarIDs = 0%nat) = false)
    by (subst calendarIDs; reflexivity).
  rewrite Hne.
  destruct (foldl _ (∅, None) calendarIDs) as [allEvents lastErr] eqn:E.
  simpl in Hev, Herr.
  assert (Hfst : forall b : bool,
            (if b then (allEvents, lastErr) else (allEvents, None)).1 = allEvents)
    by (intros []; reflexivity).
  split.
  - rewrite Hfst.
    destruct (bool_decide (size allEvents = 0%nat)) eqn:Hsz; simpl.
    + apply bool_decide_eq_true, map_size_empty_iff in Hsz.
      destruct (bool_decide (lastErr <> None)) eqn:Hl; simpl.
      * apply bool_decide_eq_true in Hl. split; [|done].
        intros _. split; [done|]. apply Herr in Hl as [?|?]; done.
      * apply bool_decide_eq_false in Hl. split; [done|].
        intros [_ Hex]. exfalso. apply Hl, Herr. by right.
    + apply bool_decide_eq_false in Hsz. split; [done|].
      intros [He _]. exfalso. apply Hsz, map_size_empty_iff, He.
  - rewrite Hfst.
    destruct (List.filter (succeeded srv y) calendarIDs) as [|c1 ok] eqn:Ef.
    + simpl in *. exact Hev.
    + assert (Hne' : bool_decide (length (c1 :: ok) = 0%nat) = false) by reflexivity.
      rewrite Hne'.
      destruct (foldl _ (∅, None) (c1 :: ok)) as [all' err'] eqn:E'.
      simpl in Hev. subst all'. by destruct (_ && _).
Qed.

(** ** The month picker *)

Lemma length_substring s : forall n k,
  (n + k <= String.length s)%nat -> String.length (substring n k s) = k.
Proof.
  induction s as [|a s IH]; intros n k H; simpl in *.
  - destruct n, k; simpl in *; try reflexivity; lia.
  - destruct n as [|n].
    + destruct k as [|k]; [reflexivity|]. simpl. f_equal. apply (IH 0%nat). lia.
    + apply IH. lia.
Qed.

Lemma length_append s t :
  String.length (String.append s t) = (String.length s + String.length t)%nat.
Proof. induction s as [|a s IH]; simpl; [reflexivity|]. by rewrite IH. Qed.

Lemma eqb_empty_false s : (0 < String.length s)%nat -> String.eqb s EmptyString = false.
Proof. destruct s; simpl; [lia|reflexivity]. Qed.

Lemma lastTwo_append_length s a :
  (1 <= String.length (lastTwo (String.append s (String a EmptyString))) <= 2)%nat.
Proof.
  unfold lastTwo, len, suffix. rewrite length_append. simpl String.length.
  destruct (Z.gtb_spec (Z.of_nat (String.length s + 1)) 2).
  - rewrite length_substring; [simpl; lia|]. rewrite length_append. simpl. lia.
  - rewrite length_append. simpl. lia.
Qed.

Lemma IsDigit_ascii digits r : 48 <= r <= 57 -> IsDigit digits r = true.
Proof.
  intros H. unfold IsDigit.
  destruct (Z.leb_spec r 255); [|lia].
  destruct (Z.leb_spec 48 r), (Z.leb_spec r 57); simpl; try reflexivity; lia.
Qed.

Lemma encodeRune_ascii r : 0 <= r < 128 -> encodeRune r = String (byte r) EmptyString.
Proof.
  intros H. unfold encodeRune.
  destruct (Z.ltb_spec r 0); [lia|].
  destruct (Z.ltb_spec 1114111 r); [lia|].
  destruct (Z.leb_spec 55296 r); [lia|]. simpl.
  destruct (Z.ltb_spec r 128); [reflexivity|lia].
Qed.

(** One decimal digit typed in the month picker. *)
Lemma handleMonthRunes_one digits p r : 48 <= r <= 57 ->
  let buf := lastTwo (String.append (monthBuffer p) (String (byte r) EmptyString)) in
  handleMonthRunes digits p [r] =
  match Atoi buf with
  | Some val =>
      if (val >=? 1) && (val <=? 12)
      then setMonthCursor (setMonthBuffer p buf) (val - 1)
      else setMonthBuffer p buf
  | None => setMonthBuffer p buf
  end.
Proof.
  intros Hr buf. unfold handleMonthRunes. cbn [foldl].
  rewrite (IsDigit_ascii digits r Hr). cbn [negb].
  rewrite encodeRune_ascii by lia. cbn [monthBuffer setMonthBuffer].
  pose proof (lastTwo_append_length (monthBuffer p) (byte r)) as Hlen.
  fold buf in Hlen. unfold lastTwo in buf.
  destruct (len (String.append (monthBuffer p) (String (byte r) EmptyString)) >? 2);
    cbn [monthBuffer setMonthBuffer]; fold buf;
    rewrite eqb_empty_false by lia; reflexivity.
Qed.

(** C9: in the month picker a typed decimal digit is appended to the
    buffer, the buffer is cut to its last two bytes and parsed again: a
    value in 1..12 sets the cursor to the value minus one, any other
    outcome leaves the cursor where it was, and nothing else in the picker
    changes. From an empty buffer "0" then "3" gives cursor 2; "1" then "3"
    gives the buffer "13", whose value is ignored: the cursor stays at the
    0 that "1" alone had set. *)
Theorem handleMonthRunes_digit (digits : Z -> bool) (p : pickerState) (r : Z) :
  48 <= r <= 57 ->
  let p' := handleMonthRunes digits p [r] in
  monthBuffer p' = lastTwo (String.append (monthBuffer p) (String (byte r) EmptyString))
  /\ (String.length (monthBuffer p') <= 2)%nat
  /\ (forall val, Atoi (monthBuffer p') = Some val -> 1 <= val <= 12 ->
        monthCursor p' = val - 1)
  /\ ((forall val, Atoi (monthBuffer p') = Some val -> ~ 1 <= val <= 12) ->
        monthCursor p' = monthCursor p)
  /\ (active p', yearCursor p', yearBuffer p') = (active p, yearCursor p, yearBuffer p)
  /\ (monthBuffer p = EmptyString ->
        monthCursor (handleMonthRunes digits (handleMonthRunes digits p [48]) [51]) = 2
        /\ monthBuffer (handleMonthRunes digits (handleMonthRunes digits p [49]) [51])
           = "13"%string
        /\ monthCursor (handleMonthRunes digits (handleMonthRunes digits p [49]) [51])
           = monthCursor (handleMonthRunes digits p [49])
        /\ monthCursor (handleMonthRunes digits p [49]) = 0).
Proof.
  intros Hr p'.
  pose proof (handleMonthRunes_one digits p r Hr) as H. cbv zeta in H. fold p' in H.
  set (buf := lastTwo (String.append (monthBuffer p) (String (byte r) EmptyString))) in *.
  assert (Hbuf : monthBuffer p' = buf).
  { rewrite H. destruct (Atoi buf) as [val|]; [|reflexivity].
    destruct (_ && _); reflexivity. }
  split; [exact Hbuf|]. split.
  { rewrite Hbuf. subst buf. apply lastTwo_append_length. }
  rewrite Hbuf. split; [|split; [|split]].
  - intros val Hval Hrange. rewrite H, Hval.
    destruct (Z.geb_spec val 1); [|lia]. destruct (Z.leb_spec val 12); [|lia].
    reflexivity.
  - intros Hout. rewrite H. destruct (Atoi buf) as [val|] eqn:Hval; [|reflexivity].
    specialize (Hout val eq_refl).
    destruct (Z.geb_spec val 1), (Z.leb_spec val 12); simpl; try reflexivity. lia.
  - rewrite H. destruct (Atoi buf) as [val|]; [|reflexivity].
    destruct (_ && _); reflexivity.
  - intros Hempty. destruct p as [a yc mc yb mb]. simpl in Hempty. subst mb.
    repeat split; vm_compute; reflexivity.
Qed.

(** ** Transitions of [Update] *)

(** C10: with no event overlay, no calendar-selection view and no picker
    open, Escape quits the program at once, exactly as "q" and Ctrl+C do:
    the model and the world are returned unchanged with [tea.Quit]. *)
Theorem escape_quits_at_top_level (digits : Z -> bool) (w : World) (m : model) (k : Key) :
  ev_active (eventView m) = false ->
  cv_active (calendarView m) = false ->
  active (picker m) = pickerNone ->
  keyString k = "esc"%string \/ keyString k = "q"%string \/ keyString k = "ctrl+c"%string ->
  Update digits w m (KeyMsg k) = Some (m, CmdQuit, w).
Proof.
  intros Hev Hcv Hp Hk. unfold Update. rewrite Hev, Hcv.
  unfold handlePickerInput. rewrite Hp. unfold mainKey.
  destruct Hk as [-> | [-> | ->]]; reflexivity.
Qed.

(** C5: a sync-completion message clears [syncing] and returns no
    command. Without an error, the delivered store replaces the one in
    memory, the error text is cleared and the store is saved in the disk
    cache under the year the model is on (the record is there whenever the
    directory can be written). With an error, the store in memory and the
    disk are left as they were and the error text "Sync failed: ..." is
    recorded. The date is not touched in either case, and a message built
    by [syncEvents] without an error always carries a store. *)
Theorem sync_completion_update (digits : Z -> bool) (w : World) (m : model)
    (msg : syncEventsMsg) :
  exists m' w',
    Update digits w m (SyncEventsMsg msg) = Some (m', CmdNil, w')
    /\ syncing m' = false
    /\ (year (state m'), month (state m'), day (state m'))
       = (year (state m), month (state m), day (state m))
    /\ (forall ev, msg_err msg = None -> msg_events msg = Some ev ->
          events (state m') = Some ev
          /\ syncError m' = EmptyString
          /\ disk w' = (gcal.SaveEventsCache (disk w) (now w) (year (state m)) (Some ev)).1
          /\ (gcal.configDirOk (disk w) = true -> gcal.writable (disk w) = true ->
              gcal.cacheFile (disk w')
              = gcal.Stored {| gcal.Year := year (state m); gcal.Events := Some ev;
                               gcal.Timestamp := now w |}))
    /\ (forall err, msg_err msg = Some err ->
          events (state m') = events (state m)
          /\ w' = w
          /\ syncError m' = String.append "Sync failed: " err
          /\ syncError m' <> EmptyString)
    /\ (forall parseRFC3339 parseDate srv calendarIDs y,
          msg = syncEvents parseRFC3339 parseDate srv calendarIDs y ->
          msg_err msg = None -> exists ev, msg_events msg = Some ev).
Proof.
  unfold Update. destruct msg as [evs err]. simpl.
  destruct err as [e|].
  - eexists _, _. split; [reflexivity|]. simpl.
    repeat split; try discriminate; intros; simplify_eq; reflexivity || discriminate.
  - destruct evs as [ev|].
    + eexists _, _. split; [reflexivity|]. simpl.
      split; [reflexivity|]. split; [reflexivity|]. split; [|split].
      * intros ev' _ [= <-]. repeat split.
        intros Hok Hwr. unfold gcal.SaveEventsCache. rewrite Hok, Hwr. reflexivity.
      * intros; discriminate.
      * intros. by eexists.
    + eexists _, _. split; [reflexivity|]. simpl.
      split; [reflexivity|]. split; [reflexivity|]. split; [|split].
      * intros; discriminate.
      * intros; discriminate.
      * intros pR pD srv ids y Hmsg _. exfalso. revert Hmsg.
        unfold syncEvents. destruct srv; [|discriminate].
        destruct (bool_decide _); [discriminate|].
        destruct (gcal.FetchAllMonthsEvents _ _ _ _ _) as [a [b|]]; discriminate.
Qed.

(** C6 (code): "a" in the selection view with "work" ticked, a service
    present and no sync in flight. The new selection is computed and
    saved, the cache file is removed, the view is closed and [syncing] is
    set, but the command returned is nil: no sync is scheduled. With
    [syncing] left set, a later "s" starts no sync either. *)
Theorem apply_sets_syncing_without_sync_command :
  match Update noDigitsAboveLatin1 sampleWorld selectingModel (KeyMsg (runeKey 97)) with
  | Some (m', c, w') =>
      c = CmdNil
      /\ syncing m' = true
      /\ gcal.CalendarIDs (config m') = ["work"%string]
      /\ gcal.configFile (disk w') = gcal.Stored {| gcal.CalendarIDs := ["work"%string] |}
      /\ gcal.cacheFile (disk w') = gcal.Absent
      /\ cv_active (calendarView m') = false
      /\ match Update noDigitsAboveLatin1 w' m' (KeyMsg (runeKey 115)) with
         | Some (_, c', _) => c' = CmdNil
         | None => False
         end
  | None => False
  end.
Proof. vm_compute. repeat split; reflexivity. Qed.

(** *** The year keys *)

Lemma clampDay_setEvents_adjustYear s delta ev :
  clampDay (setEvents (adjustYear s delta) ev) = setEvents (adjustYear s delta) ev.
Proof. apply clampDay_id. exact (adjustYear_valid s delta). Qed.

Lemma yearKey_cases (w : World) (m : model) (delta : Z) :
  let s' := adjustYear (state m) delta in
  let cached := (gcal.LoadEventsCache (disk w) (now w) (year s')).1 in
  (year s' = GoTime.Year (now w) -> yearKey w m delta = Some (setState m s', CmdNil, w))
  /\ (year s' <> GoTime.Year (now w) ->
      (forall ev, cached = Some ev ->
         yearKey w m delta = Some (setState m (setEvents s' (Some ev)), CmdNil, w))
      /\ (cached = None -> calendarSrv m <> None -> syncing m = false ->
          yearKey w m delta =
          Some (setSyncing (setState m (setEvents s' (Some ∅))) true,
                CmdSync (calendarSrv m) (gcal.CalendarIDs (config m)) (year s'), w))
      /\ (cached = None -> calendarSrv m = None \/ syncing m = true ->
          yearKey w m delta = Some (setState m (setEvents s' (Some ∅)), CmdNil, w))).
Proof.
  intros s' cached. unfold yearKey. cbn [state setState]. fold s'. fold cached.
  split.
  - intros Hy. rewrite Hy, Z.eqb_refl. cbn [negb]. unfold finish. cbn [state setState].
    rewrite (clampDay_id s') by apply adjustYear_valid. reflexivity.
  - intros Hy. apply Z.eqb_neq in Hy. rewrite Hy. cbn [negb].
    split; [|split].
    + intros ev Hc. rewrite Hc. unfold finish. cbn [state setState].
      subst s'. rewrite clampDay_setEvents_adjustYear. reflexivity.
    + intros Hc Hsrv Hsync. rewrite Hc. cbn [calendarSrv syncing setState config state].
      rewrite Hsync. rewrite bool_decide_eq_true_2 by done. reflexivity.
    + intros Hc Hno. rewrite Hc. cbn [calendarSrv syncing setState config state].
      assert (Hb : bool_decide (calendarSrv m <> None) && negb (syncing m) = false).
      { destruct Hno as [Hn|Hs].
        - rewrite bool_decide_eq_false_2; [reflexivity|]. intros H. by apply H.
        - rewrite Hs. apply andb_false_r. }
      rewrite Hb. unfold finish. cbn [state setState].
      subst s'. rewrite clampDay_setEvents_adjustYear. reflexivity.
Qed.

(** C7 (as stated, refuted): the program starts in 2026 and receives its
    first sync result; "N" moves to 2027, finds no record and starts a sync
    for 2027, whose result is adopted and saved. "P" then moves back to
    2026: the events in memory are those of 2027 and the disk holds no
    record for 2026, yet the store is neither replaced nor cleared and no
    sync is started, although a service is present and none is in flight. *)
Lemma year_step_back_to_current_year_keeps_store :
  let m0 := initialModel sampleWorld (Some halfService, None) in
  match run noDigitsAboveLatin1 sampleWorld m0
          [SyncEventsMsg {| msg_events := Some sampleStore; msg_err := None |};
           KeyMsg (runeKey 78)] with
  | Some (_, c, _) => c = CmdSync (Some halfService) ["primary"%string] 2027
  | None => False
  end
  /\
  match run noDigitsAboveLatin1 sampleWorld m0
          [SyncEventsMsg {| msg_events := Some sampleStore; msg_err := None |};
           KeyMsg (runeKey 78);
           SyncEventsMsg {| msg_events := Some otherStore; msg_err := None |};
           KeyMsg (runeKey 80)] with
  | Some (m', c, w') =>
      year (state m') = 2026
      /\ events (state m') = Some otherStore
      /\ otherStore <> ∅
      /\ (gcal.LoadEventsCache (disk w') (now w') 2026).1 = None
      /\ calendarSrv m' <> None
      /\ syncing m' = false
      /\ c = CmdNil
  | None => False
  end.
Proof.
  split; [vm_compute; reflexivity|].
  vm_compute. repeat split; try reflexivity; discriminate.
Qed.

(** C7 (amended): at the top level "N" and "P" step the year by +1 and -1
    and run the cache-or-fetch sequence whenever the year reached differs
    from the year of the current date ([time.Now().Year()]): the disk cache
    is read for the year reached; events found there are adopted whatever
    their freshness; when none are found the store in memory is emptied
    and, if a calendar service is present and no sync is in flight, a sync
    for that year is started. When the year reached is the current year
    the store is left as it is. *)
Theorem year_step_cache_or_fetch (digits : Z -> bool) (w : World) (m : model) (k : Key)
    (delta : Z) :
  ev_active (eventView m) = false ->
  cv_active (calendarView m) = false ->
  active (picker m) = pickerNone ->
  (keyString k = "N"%string /\ delta = 1) \/ (keyString k = "P"%string /\ delta = -1) ->
  let s' := adjustYear (state m) delta in
  let cached := (gcal.LoadEventsCache (disk w) (now w) (year s')).1 in
  (year s' = GoTime.Year (now w) ->
     Update digits w m (KeyMsg k) = Some (setState m s', CmdNil, w))
  /\ (year s' <> GoTime.Year (now w) ->
      (forall ev, cached = Some ev ->
         Update digits w m (KeyMsg k)
         = Some (setState m (setEvents s' (Some ev)), CmdNil, w))
      /\ (cached = None -> calendarSrv m <> None -> syncing m = false ->
          Update digits w m (KeyMsg k)
          = Some (setSyncing (setState m (setEvents s' (Some ∅))) true,
                  CmdSync (calendarSrv m) (gcal.CalendarIDs (config m)) (year s'), w))
      /\ (cached = None -> calendarSrv m = None \/ syncing m = true ->
          Update digits w m (KeyMsg k)
          = Some (setState m (setEvents s' (Some ∅)), CmdNil, w))).
Proof.
  intros Hev Hcv Hp Hk.
  assert (Hup : Update digits w m (KeyMsg k) = yearKey w m delta).
  { unfold Update. rewrite Hev, Hcv. unfold handlePickerInput. rewrite Hp.
    unfold mainKey. destruct Hk as [[-> ->] | [-> ->]]; reflexivity. }
  rewrite Hup. apply yearKey_cases.
Qed.

(** *** The day stays valid *)

Lemma handlePickerInput_keeps digits m k :
  calendarView (handlePickerInput digits m k).1 = calendarView m
  /\ ((handlePickerInput digits m k).2 = false ->
      state (handlePickerInput digits m k).1 = state m).
Proof.
  unfold handlePickerInput. cbv zeta.
  repeat case_match; simpl; split; try reflexivity; intros; try discriminate; reflexivity.
Qed.

Lemma handleCalendarViewInput_keeps w m k m' w' b :
  handleCalendarViewInput w m k = Some (m', w', b) ->
  state m' = state m
  /\ (0 <= cv_cursor (calendarView m) -> 0 <= cv_cursor (calendarView m'))
  /\ (b = false -> calendarView m' = calendarView m).
Proof.
  unfold handleCalendarViewInput. cbv zeta.
  repeat case_match; intros Hres; simplify_eq; simpl; repeat split; intros; try lia;
    try discriminate; reflexivity.
Qed.

Lemma finish_inv w m m' c w' :
  0 <= cv_cursor (calendarView m) -> finish w m = Some (m', c, w') -> inv m'.
Proof.
  unfold finish. intros Hc [= <- <- <-]. split; simpl; [apply clampDay_valid|exact Hc].
Qed.

Lemma yearKey_inv w m delta m' c w' :
  0 <= cv_cursor (calendarView m) -> yearKey w m delta = Some (m', c, w') -> inv m'.
Proof.
  intros Hc. unfold yearKey. cbv zeta.
  repeat case_match; intros Hres;
    try (apply finish_inv in Hres; [exact Hres|exact Hc]).
  simplify_eq. split; [|exact Hc]. exact (adjustYear_valid (state m) delta).
Qed.

Lemma mainKey_inv w m k m' c w' : inv m -> mainKey w m k = Some (m', c, w') -> inv m'.
Proof.
  intros [Hd Hc]. unfold mainKey. cbv zeta.
  repeat case_match; intros Hres;
    try (apply yearKey_inv in Hres; [exact Hres|exact Hc]);
    try (apply finish_inv in Hres; [exact Hres|simpl; lia]);
    simplify_eq; split; assumption.
Qed.

Lemma Update_inv digits w m msg m' c w' :
  inv m -> Update digits w m msg = Some (m', c, w') -> inv m'.
Proof.
  intros [Hd Hc]. destruct msg as [wd|k|msg|]; simpl.
  - intros H. apply finish_inv in H; [exact H|exact Hc].
  - destruct (ev_active (eventView m)).
    { destruct (_ || _); intros [= <- <- <-]; split; assumption. }
    destruct (cv_active (calendarView m)) eqn:Hcv.
    + destruct (handleCalendarViewInput w m k) as [[[m1 w1] b]|] eqn:E; [|discriminate].
      apply handleCalendarViewInput_keeps in E as (Hs & Hcur & Hb).
      destruct b.
      * intros Hres. injection Hres as Hm _ _. subst m'.
        split; [by rewrite Hs|by apply Hcur].
      * destruct (handlePickerInput_keeps digits m1 k) as [Hcal Hst].
        destruct (handlePickerInput digits m1 k) as [m2 handled]. simpl in Hcal, Hst.
        destruct handled.
        -- intros H. apply finish_inv in H; [exact H|]. rewrite Hcal. by apply Hcur.
        -- intros H. apply mainKey_inv in H; [exact H|].
           split; [by rewrite (Hst eq_refl), Hs|rewrite Hcal; by apply Hcur].
    + destruct (handlePickerInput_keeps digits m k) as [Hcal Hst].
      destruct (handlePickerInput digits m k) as [m2 handled]. simpl in Hcal, Hst.
      destruct handled.
      * intros H. apply finish_inv in H; [exact H|]. by rewrite Hcal.
      * intros H. apply mainKey_inv in H; [exact H|].
        split; [by rewrite (Hst eq_refl)|by rewrite Hcal].
  - destruct (msg_err msg).
    + intros [= <- <- <-]. split; assumption.
    + destruct (msg_events msg); intros [= <- <- <-]; split; assumption.
  - intros H. apply finish_inv in H; [exact H|exact Hc].
Qed.

Lemma initialModel_inv w svc : inv (initialModel w svc).
Proof.
  unfold initialModel.
  destruct (gcal.LoadEventsCache _ _ _) as [cached fresh]. destruct svc as [srv err].
  split; simpl; [|lia].
  unfold dayValid, GoTime.Year, GoTime.Month, GoTime.Day. simpl.
  destruct (GoTime.dateOf (now w)) as [[y mo] d] eqn:E. simpl.
  apply dateOf_valid in E. lia.
Qed.

Lemma reachable_inv digits m : reachable digits m -> inv m.
Proof.
  induction 1 as [w svc|w m msg m' c w' _ IH Hup].
  - apply initialModel_inv.
  - exact (Update_inv digits w m msg m' c w' IH Hup).
Qed.

Lemma handleCalendarViewInput_total w m k :
  0 <= cv_cursor (calendarView m) -> is_Some (handleCalendarViewInput w m k).
Proof.
  intros Hc. unfold handleCalendarViewInput. cbv zeta.
  repeat case_match; try done; try lia.
  exfalso.
  match goal with Hl : _ !! _ = None |- _ => apply lookup_ge_None in Hl end.
  lia.
Qed.

Lemma mainKey_total w m k : is_Some (mainKey w m k).
Proof. unfold mainKey, yearKey, finish. cbv zeta. repeat case_match; done. Qed.

(** The index expression of the selection view never goes out of range:
    a reachable model has a next state on every message. *)
Lemma Update_total_on_reachable digits w m msg :
  reachable digits m -> is_Some (Update digits w m msg).
Proof.
  intros Hr. apply reachable_inv in Hr as [_ Hc].
  destruct msg as [wd|k|msg|]; simpl; try done.
  - destruct (ev_active (eventView m)).
    { destruct (_ || _); done. }
    destruct (cv_active (calendarView m)).
    + destruct (handleCalendarViewInput_total w m k Hc) as [[[m1 w1] b] ->].
      destruct b; [done|].
      destruct (handlePickerInput digits m1 k) as [m2 handled].
      destruct handled; [done|]. apply mainKey_total.
    + destruct (handlePickerInput digits m k) as [m2 handled].
      destruct handled; [done|]. apply mainKey_total.
  - destruct (msg_err msg); [done|]. destruct (msg_events msg); done.
Qed.


(** ** The conditional properties at concrete inputs *)


Lemma LoadEventsCache_cases_witness :
  gcal.LoadEventsCache sampleDisk (24 * GoTime.Hour + 60 * GoTime.Second) 2025 = (None, false)
  /\ (gcal.LoadEventsCache sampleDisk (24 * GoTime.Hour + 60 * GoTime.Second) 2024).1
     = Some sampleStore
  /\ ((gcal.LoadEventsCache sampleDisk (24 * GoTime.Hour - 60 * GoTime.Second) 2024).2 = true
      <-> GoTime.Sub (24 * GoTime.Hour - 60 * GoTime.Second) 0 <= 24 * GoTime.Hour).
Proof.
  split; [|split].
  - apply (proj1 (LoadEventsCache_cases sampleDisk
                    (24 * GoTime.Hour + 60 * GoTime.Second) 2025)).
    right. right. right. exists sampleCache. split; [reflexivity|discriminate].
  - apply (proj2 (LoadEventsCache_cases sampleDisk
                    (24 * GoTime.Hour + 60 * GoTime.Second) 2024) sampleCache);
      reflexivity.
  - apply (proj2 (LoadEventsCache_cases sampleDisk
                    (24 * GoTime.Hour - 60 * GoTime.Second) 2024) sampleCache);
      reflexivity.
Defined.

Lemma FetchAllMonthsEvents_error_witness :
  (gcal.FetchAllMonthsEvents noParse noParse (Some halfService) ["home"; "work"] 2024).2
  <> None.
Proof.
  apply (proj1 (proj2 (FetchAllMonthsEvents_error noParse noParse halfService
                         ["home"; "work"] 2024))).
  split; [vm_compute; reflexivity|].
  exists "home"%string. split; [apply elem_of_cons; by left|reflexivity].
Defined.

Lemma handleMonthRunes_digit_witness :
  monthCursor
    (handleMonthRunes noDigitsAboveLatin1
       (handleMonthRunes noDigitsAboveLatin1 (openMonth samplePicker 8) [48]) [51]) = 2.
Proof.
  apply (handleMonthRunes_digit noDigitsAboveLatin1 (openMonth samplePicker 8) 51).
  - lia.
  - reflexivity.
Defined.

Lemma escape_quits_at_top_level_witness :
  Update noDigitsAboveLatin1 sampleWorld sampleModel (KeyMsg (namedKey "esc"))
  = Some (sampleModel, CmdQuit, sampleWorld).
Proof.
  apply (escape_quits_at_top_level noDigitsAboveLatin1 sampleWorld sampleModel
           (namedKey "esc")); try reflexivity.
  left. reflexivity.
Defined.

Lemma sync_completion_update_witness :
  exists m' w',
    Update noDigitsAboveLatin1 sampleWorld sampleModel
      (SyncEventsMsg {| msg_events := Some sampleStore; msg_err := None |})
    = Some (m', CmdNil, w')
    /\ events (state m') = Some sampleStore
    /\ gcal.cacheFile (disk w')
       = gcal.Stored {| gcal.Year := 2026; gcal.Events := Some sampleStore;
                        gcal.Timestamp := now sampleWorld |}.
Proof.
  destruct (sync_completion_update noDigitsAboveLatin1 sampleWorld sampleModel
              {| msg_events := Some sampleStore; msg_err := None |})
    as (m' & w' & Hup & _ & _ & Hok & _).
  exists m', w'. split; [exact Hup|].
  destruct (Hok sampleStore eq_refl eq_refl) as (Hev & _ & _ & Hfile).
  split; [exact Hev|]. apply Hfile; reflexivity.
Defined.

Lemma year_step_cache_or_fetch_witness :
  Update noDigitsAboveLatin1 sampleWorld sampleModel (KeyMsg (runeKey 78))
  = Some (setSyncing
            (setState sampleModel (setEvents (adjustYear (state sampleModel) 1) (Some ∅)))
            true,
          CmdSync (Some halfService) ["primary"%string] 2027, sampleWorld).
Proof.
  apply (year_step_cache_or_fetch noDigitsAboveLatin1 sampleWorld sampleModel
           (runeKey 78) 1); try reflexivity.
  - left. split; reflexivity.
  - vm_compute. discriminate.
  - discriminate.
Defined.

